(** * OMNIA Control Protocol real-time demo: a model of [run.py]

    The script has two routines: [parse_xml], which decodes one received
    chunk and writes six text boxes, and [enable_click], which performs
    the handshake and then reads from the socket for ever.  Both are
    embedded below as functions over an explicit world (the widgets and
    the history of what was done to them and to the socket).

    Conventions.
    - A Python [bytes] object is a [list byte].
    - A Python [str] is a Rocq [string] holding the text as UTF-8.
    - A Python [float] is an IEEE-754 binary64 value, written with the
      [spec_float] type of the standard library.
    - A Python exception is a record holding its class name. *)

From Stdlib Require Import ZArith List String Ascii Bool Lia.
From Stdlib Require Import Strings.Byte DecimalString.
From Stdlib Require Import Floats.SpecFloat.
Import ListNotations.

Local Open Scope string_scope.
Local Open Scope list_scope.

(** ** Python values *)

Definition bytes := list byte.

Record exn := mkExn { exn_class : string; exn_detail : string }.

Definition ParseError (detail : string) : exn := mkExn "ParseError" detail.
Definition ValueError (detail : string) : exn := mkExn "ValueError" detail.
Definition TypeError (detail : string) : exn := mkExn "TypeError" detail.
Definition TclError (detail : string) : exn := mkExn "TclError" detail.
Definition UnicodeDecodeError (detail : string) : exn :=
  mkExn "UnicodeDecodeError" detail.

(** What a call either returns or raises. *)
Definition raises (A : Type) : Type := (exn + A)%type.

(** ** Characters *)

Definition code (c : ascii) : Z := Z.of_N (N_of_ascii c).

Definition in_range (lo hi : Z) (c : ascii) : bool :=
  (lo <=? code c)%Z && (code c <=? hi)%Z.

Definition is_digit (c : ascii) : bool := in_range 48 57 c.

(** [Py_ISSPACE]: tab, line feed, vertical tab, form feed, carriage
    return and space. *)
Definition is_space (c : ascii) : bool := in_range 9 13 c || (code c =? 32)%Z.

Definition lower (c : ascii) : ascii :=
  if in_range 65 90 c then ascii_of_N (N_of_ascii c + 32) else c.

Definition digit_value (c : ascii) : Z := code c - 48.

Fixpoint drop_spaces (cs : list ascii) : list ascii :=
  match cs with
  | c :: rest => if is_space c then drop_spaces rest else cs
  | [] => []
  end.

(** Leading and trailing white space is removed before a number is read. *)
Definition strip (cs : list ascii) : list ascii :=
  rev (drop_spaces (rev (drop_spaces cs))).

Fixpoint span_digits (cs : list ascii) : list ascii * list ascii :=
  match cs with
  | c :: rest =>
      if is_digit c
      then let '(ds, tl) := span_digits rest in (c :: ds, tl)
      else ([], cs)
  | [] => ([], [])
  end.

Definition digits_value (ds : list ascii) : Z :=
  fold_left (fun acc d => 10 * acc + digit_value d)%Z ds 0%Z.

(** Underscores in a numeric literal: each must stand between two
    digits.  [None] when the rule is broken, otherwise the text without
    its underscores. *)
Fixpoint remove_underscores (prev : option ascii) (cs : list ascii)
  : option (list ascii) :=
  match cs with
  | [] =>
      match prev with
      | Some "_"%char => None
      | _ => Some []
      end
  | c :: rest =>
      if Ascii.eqb c "_"
      then match prev with
           | Some p => if is_digit p then remove_underscores (Some c) rest
                       else None
           | None => None
           end
      else match prev with
           | Some "_"%char =>
               if is_digit c
               then option_map (cons c) (remove_underscores (Some c) rest)
               else None
           | _ => option_map (cons c) (remove_underscores (Some c) rest)
           end
  end.

(** ** Text as [int] and [float] see it

    Before a text is read as a number, every Unicode white space
    becomes a space and every Unicode decimal digit becomes the ASCII
    digit of the same value; a text holding any other character beyond
    ASCII is not a number.  A text is held here as its UTF-8 bytes, so
    the code points are recovered first. *)

Definition is_continuation (c : ascii) : bool := in_range 128 191 c.

Fixpoint code_points (cs : list ascii) : option (list Z) :=
  match cs with
  | [] => Some []
  | c0 :: r0 =>
      let n := code c0 in
      if (n <=? 127)%Z then option_map (cons n) (code_points r0)
      else if (194 <=? n)%Z && (n <=? 223)%Z then
        match r0 with
        | c1 :: r1 =>
            if is_continuation c1
            then option_map (cons ((n - 192) * 64 + (code c1 - 128))%Z)
                            (code_points r1)
            else None
        | _ => None
        end
      else if (224 <=? n)%Z && (n <=? 239)%Z then
        match r0 with
        | c1 :: c2 :: r2 =>
            if is_continuation c1
               && (negb (n =? 224)%Z || (160 <=? code c1)%Z)
               && (negb (n =? 237)%Z || (code c1 <=? 159)%Z)
               && is_continuation c2
            then option_map
                   (cons ((n - 224) * 4096 + (code c1 - 128) * 64
                          + (code c2 - 128))%Z)
                   (code_points r2)
            else None
        | _ => None
        end
      else if (240 <=? n)%Z && (n <=? 244)%Z then
        match r0 with
        | c1 :: c2 :: c3 :: r3 =>
            if is_continuation c1
               && (negb (n =? 240)%Z || (144 <=? code c1)%Z)
               && (negb (n =? 244)%Z || (code c1 <=? 143)%Z)
               && is_continuation c2 && is_continuation c3
            then option_map
                   (cons ((n - 240) * 262144 + (code c1 - 128) * 4096
                          + (code c2 - 128) * 64 + (code c3 - 128))%Z)
                   (code_points r3)
            else None
        | _ => None
        end
      else None
  end.

(** White space beyond ASCII. *)
Definition unicode_space (cp : Z) : bool :=
  existsb (Z.eqb cp) [133; 160; 5760; 8232; 8233; 8239; 8287; 12288]%Z
  || ((8192 <=? cp)%Z && (cp <=? 8202)%Z).

(** The code points of the digit zero of each script that has decimal
    digits (Unicode 14); the nine other digits follow each of them. *)
Definition decimal_zeros : list Z :=
  [1632; 1776; 1984; 2406; 2534; 2662; 2790; 2918; 3046; 3174; 3302; 3430;
   3558; 3664; 3792; 3872; 4160; 4240; 6112; 6160; 6470; 6608; 6784; 6800;
   6992; 7088; 7232; 7248; 42528; 43216; 43264; 43472; 43504; 43600; 44016;
   65296; 66720; 68912; 69734; 69872; 69942; 70096; 70384; 70736; 70864;
   71248; 71360; 71472; 71904; 72016; 72784; 73040; 73120; 92768; 92864;
   93008; 123200; 123632; 125264; 130032]%Z.

(** The value of a decimal digit beyond ASCII.  The mathematical digits
    U+1D7CE to U+1D7FF are five runs of ten. *)
Definition unicode_decimal (cp : Z) : option Z :=
  if (120782 <=? cp)%Z && (cp <=? 120831)%Z then Some ((cp - 120782) mod 10)%Z
  else
    match List.find (fun z => (z <=? cp)%Z && (cp <=? z + 9)%Z) decimal_zeros with
    | Some z => Some (cp - z)%Z
    | None => None
    end.

Definition ascii_of_code (n : Z) : ascii := ascii_of_N (Z.to_N n).

Fixpoint ascii_of_points (cps : list Z) : option (list ascii) :=
  match cps with
  | [] => Some []
  | cp :: rest =>
      let c :=
        if (cp <? 127)%Z then Some (ascii_of_code cp)
        else if unicode_space cp then Some " "%char
        else option_map (fun d => ascii_of_code (48 + d)) (unicode_decimal cp) in
      match c with
      | Some a => option_map (cons a) (ascii_of_points rest)
      | None => None
      end
  end.

(** The ASCII text that the numeric conversions work on; [None] when
    the text holds a character that cannot be part of a number. *)
Definition numeral_text (text : string) : option (list ascii) :=
  match code_points (list_ascii_of_string text) with
  | Some cps => ascii_of_points cps
  | None => None
  end.

(** ** [repr(text)], as error messages quote a text *)

(** The code points beyond ASCII that are not printable, as ranges
    (Unicode 14): [repr] writes them as escapes. *)
Definition unprintable_ranges : list (Z * Z) :=
  [(128, 160); (173, 173); (888, 889); (896, 899); (907, 907); (909, 909);
   (930, 930); (1328, 1328); (1367, 1368); (1419, 1420); (1424, 1424);
   (1480, 1487); (1515, 1518); (1525, 1541); (1564, 1564); (1757, 1757);
   (1806, 1807); (1867, 1868); (1970, 1983); (2043, 2044); (2094, 2095);
   (2111, 2111); (2140, 2141); (2143, 2143); (2155, 2159); (2191, 2199);
   (2274, 2274); (2436, 2436); (2445, 2446); (2449, 2450); (2473, 2473);
   (2481, 2481); (2483, 2485); (2490, 2491); (2501, 2502); (2505, 2506);
   (2511, 2518); (2520, 2523); (2526, 2526); (2532, 2533); (2559, 2560);
   (2564, 2564); (2571, 2574); (2577, 2578); (2601, 2601); (2609, 2609);
   (2612, 2612); (2615, 2615); (2618, 2619); (2621, 2621); (2627, 2630);
   (2633, 2634); (2638, 2640); (2642, 2648); (2653, 2653); (2655, 2661);
   (2679, 2688); (2692, 2692); (2702, 2702); (2706, 2706); (2729, 2729);
   (2737, 2737); (2740, 2740); (2746, 2747); (2758, 2758); (2762, 2762);
   (2766, 2767); (2769, 2783); (2788, 2789); (2802, 2808); (2816, 2816);
   (2820, 2820); (2829, 2830); (2833, 2834); (2857, 2857); (2865, 2865);
   (2868, 2868); (2874, 2875); (2885, 2886); (2889, 2890); (2894, 2900);
   (2904, 2907); (2910, 2910); (2916, 2917); (2936, 2945); (2948, 2948);
   (2955, 2957); (2961, 2961); (2966, 2968); (2971, 2971); (2973, 2973);
   (2976, 2978); (2981, 2983); (2987, 2989); (3002, 3005); (3011, 3013);
   (3017, 3017); (3022, 3023); (3025, 3030); (3032, 3045); (3067, 3071);
   (3085, 3085); (3089, 3089); (3113, 3113); (3130, 3131); (3141, 3141);
   (3145, 3145); (3150, 3156); (3159, 3159); (3163, 3164); (3166, 3167);
   (3172, 3173); (3184, 3190); (3213, 3213); (3217, 3217); (3241, 3241);
   (3252, 3252); (3258, 3259); (3269, 3269); (3273, 3273); (3278, 3284);
   (3287, 3292); (3295, 3295); (3300, 3301); (3312, 3312); (3315, 3327);
   (3341, 3341); (3345, 3345); (3397, 3397); (3401, 3401); (3408, 3411);
   (3428, 3429); (3456, 3456); (3460, 3460); (3479, 3481); (3506, 3506);
   (3516, 3516); (3518, 3519); (3527, 3529); (3531, 3534); (3541, 3541);
   (3543, 3543); (3552, 3557); (3568, 3569); (3573, 3584); (3643, 3646);
   (3676, 3712); (3715, 3715); (3717, 3717); (3723, 3723); (3748, 3748);
   (3750, 3750); (3774, 3775); (3781, 3781); (3783, 3783); (3790, 3791);
   (3802, 3803); (3808, 3839); (3912, 3912); (3949, 3952); (3992, 3992);
   (4029, 4029); (4045, 4045); (4059, 4095); (4294, 4294); (4296, 4300);
   (4302, 4303); (4681, 4681); (4686, 4687); (4695, 4695); (4697, 4697);
   (4702, 4703); (4745, 4745); (4750, 4751); (4785, 4785); (4790, 4791);
   (4799, 4799); (4801, 4801); (4806, 4807); (4823, 4823); (4881, 4881);
   (4886, 4887); (4955, 4956); (4989, 4991); (5018, 5023); (5110, 5111);
   (5118, 5119); (5760, 5760); (5789, 5791); (5881, 5887); (5910, 5918);
   (5943, 5951); (5972, 5983); (5997, 5997); (6001, 6001); (6004, 6015);
   (6110, 6111); (6122, 6127); (6138, 6143); (6158, 6158); (6170, 6175);
   (6265, 6271); (6315, 6319); (6390, 6399); (6431, 6431); (6444, 6447);
   (6460, 6463); (6465, 6467); (6510, 6511); (6517, 6527); (6572, 6575);
   (6602, 6607); (6619, 6621); (6684, 6685); (6751, 6751); (6781, 6782);
   (6794, 6799); (6810, 6815); (6830, 6831); (6863, 6911); (6989, 6991);
   (7039, 7039); (7156, 7163); (7224, 7226); (7242, 7244); (7305, 7311);
   (7355, 7356); (7368, 7375); (7419, 7423); (7958, 7959); (7966, 7967);
   (8006, 8007); (8014, 8015); (8024, 8024); (8026, 8026); (8028, 8028);
   (8030, 8030); (8062, 8063); (8117, 8117); (8133, 8133); (8148, 8149);
   (8156, 8156); (8176, 8177); (8181, 8181); (8191, 8207); (8232, 8239);
   (8287, 8303); (8306, 8307); (8335, 8335); (8349, 8351); (8385, 8399);
   (8433, 8447); (8588, 8591); (9255, 9279); (9291, 9311); (11124, 11125);
   (11158, 11158); (11508, 11512); (11558, 11558); (11560, 11564);
   (11566, 11567); (11624, 11630); (11633, 11646); (11671, 11679);
   (11687, 11687); (11695, 11695); (11703, 11703); (11711, 11711);
   (11719, 11719); (11727, 11727); (11735, 11735); (11743, 11743);
   (11870, 11903); (11930, 11930); (12020, 12031); (12246, 12271);
   (12284, 12288); (12352, 12352); (12439, 12440); (12544, 12548);
   (12592, 12592); (12687, 12687); (12772, 12783); (12831, 12831);
   (42125, 42127); (42183, 42191); (42540, 42559); (42744, 42751);
   (42955, 42959); (42962, 42962); (42964, 42964); (42970, 42993);
   (43053, 43055); (43066, 43071); (43128, 43135); (43206, 43213);
   (43226, 43231); (43348, 43358); (43389, 43391); (43470, 43470);
   (43482, 43485); (43519, 43519); (43575, 43583); (43598, 43599);
   (43610, 43611); (43715, 43738); (43767, 43776); (43783, 43784);
   (43791, 43792); (43799, 43807); (43815, 43815); (43823, 43823);
   (43884, 43887); (44014, 44015); (44026, 44031); (55204, 55215);
   (55239, 55242); (55292, 63743); (64110, 64111); (64218, 64255);
   (64263, 64274); (64280, 64284); (64311, 64311); (64317, 64317);
   (64319, 64319); (64322, 64322); (64325, 64325); (64451, 64466);
   (64912, 64913); (64968, 64974); (64976, 65007); (65050, 65055);
   (65107, 65107); (65127, 65127); (65132, 65135); (65141, 65141);
   (65277, 65280); (65471, 65473); (65480, 65481); (65488, 65489);
   (65496, 65497); (65501, 65503); (65511, 65511); (65519, 65531);
   (65534, 65535); (65548, 65548); (65575, 65575); (65595, 65595);
   (65598, 65598); (65614, 65615); (65630, 65663); (65787, 65791);
   (65795, 65798); (65844, 65846); (65935, 65935); (65949, 65951);
   (65953, 65999); (66046, 66175); (66205, 66207); (66257, 66271);
   (66300, 66303); (66340, 66348); (66379, 66383); (66427, 66431);
   (66462, 66462); (66500, 66503); (66518, 66559); (66718, 66719);
   (66730, 66735); (66772, 66775); (66812, 66815); (66856, 66863);
   (66916, 66926); (66939, 66939); (66955, 66955); (66963, 66963);
   (66966, 66966); (66978, 66978); (66994, 66994); (67002, 67002);
   (67005, 67071); (67383, 67391); (67414, 67423); (67432, 67455);
   (67462, 67462); (67505, 67505); (67515, 67583); (67590, 67591);
   (67593, 67593); (67638, 67638); (67641, 67643); (67645, 67646);
   (67670, 67670); (67743, 67750); (67760, 67807); (67827, 67827);
   (67830, 67834); (67868, 67870); (67898, 67902); (67904, 67967);
   (68024, 68027); (68048, 68049); (68100, 68100); (68103, 68107);
   (68116, 68116); (68120, 68120); (68150, 68151); (68155, 68158);
   (68169, 68175); (68185, 68191); (68256, 68287); (68327, 68330);
   (68343, 68351); (68406, 68408); (68438, 68439); (68467, 68471);
   (68498, 68504); (68509, 68520); (68528, 68607); (68681, 68735);
   (68787, 68799); (68851, 68857); (68904, 68911); (68922, 69215);
   (69247, 69247); (69290, 69290); (69294, 69295); (69298, 69375);
   (69416, 69423); (69466, 69487); (69514, 69551); (69580, 69599);
   (69623, 69631); (69710, 69713); (69750, 69758); (69821, 69821);
   (69827, 69839); (69865, 69871); (69882, 69887); (69941, 69941);
   (69960, 69967); (70007, 70015); (70112, 70112); (70133, 70143);
   (70162, 70162); (70207, 70271); (70279, 70279); (70281, 70281);
   (70286, 70286); (70302, 70302); (70314, 70319); (70379, 70383);
   (70394, 70399); (70404, 70404); (70413, 70414); (70417, 70418);
   (70441, 70441); (70449, 70449); (70452, 70452); (70458, 70458);
   (70469, 70470); (70473, 70474); (70478, 70479); (70481, 70486);
   (70488, 70492); (70500, 70501); (70509, 70511); (70517, 70655);
   (70748, 70748); (70754, 70783); (70856, 70863); (70874, 71039);
   (71094, 71095); (71134, 71167); (71237, 71247); (71258, 71263);
   (71277, 71295); (71354, 71359); (71370, 71423); (71451, 71452);
   (71468, 71471); (71495, 71679); (71740, 71839); (71923, 71934);
   (71943, 71944); (71946, 71947); (71956, 71956); (71959, 71959);
   (71990, 71990); (71993, 71994); (72007, 72015); (72026, 72095);
   (72104, 72105); (72152, 72153); (72165, 72191); (72264, 72271);
   (72355, 72367); (72441, 72703); (72713, 72713); (72759, 72759);
   (72774, 72783); (72813, 72815); (72848, 72849); (72872, 72872);
   (72887, 72959); (72967, 72967); (72970, 72970); (73015, 73017);
   (73019, 73019); (73022, 73022); (73032, 73039); (73050, 73055);
   (73062, 73062); (73065, 73065); (73103, 73103); (73106, 73106);
   (73113, 73119); (73130, 73439); (73465, 73647); (73649, 73663);
   (73714, 73726); (74650, 74751); (74863, 74863); (74869, 74879);
   (75076, 77711); (77811, 77823); (78895, 82943); (83527, 92159);
   (92729, 92735); (92767, 92767); (92778, 92781); (92863, 92863);
   (92874, 92879); (92910, 92911); (92918, 92927); (92998, 93007);
   (93018, 93018); (93026, 93026); (93048, 93052); (93072, 93759);
   (93851, 93951); (94027, 94030); (94088, 94094); (94112, 94175);
   (94181, 94191); (94194, 94207); (100344, 100351); (101590, 101631);
   (101641, 110575); (110580, 110580); (110588, 110588); (110591, 110591);
   (110883, 110927); (110931, 110947); (110952, 110959); (111356, 113663);
   (113771, 113775); (113789, 113791); (113801, 113807); (113818, 113819);
   (113824, 118527); (118574, 118575); (118599, 118607); (118724, 118783);
   (119030, 119039); (119079, 119080); (119155, 119162); (119275, 119295);
   (119366, 119519); (119540, 119551); (119639, 119647); (119673, 119807);
   (119893, 119893); (119965, 119965); (119968, 119969); (119971, 119972);
   (119975, 119976); (119981, 119981); (119994, 119994); (119996, 119996);
   (120004, 120004); (120070, 120070); (120075, 120076); (120085, 120085);
   (120093, 120093); (120122, 120122); (120127, 120127); (120133, 120133);
   (120135, 120137); (120145, 120145); (120486, 120487); (120780, 120781);
   (121484, 121498); (121504, 121504); (121520, 122623); (122655, 122879);
   (122887, 122887); (122905, 122906); (122914, 122914); (122917, 122917);
   (122923, 123135); (123181, 123183); (123198, 123199); (123210, 123213);
   (123216, 123535); (123567, 123583); (123642, 123646); (123648, 124895);
   (124903, 124903); (124908, 124908); (124911, 124911); (124927, 124927);
   (125125, 125126); (125143, 125183); (125260, 125263); (125274, 125277);
   (125280, 126064); (126133, 126208); (126270, 126463); (126468, 126468);
   (126496, 126496); (126499, 126499); (126501, 126502); (126504, 126504);
   (126515, 126515); (126520, 126520); (126522, 126522); (126524, 126529);
   (126531, 126534); (126536, 126536); (126538, 126538); (126540, 126540);
   (126544, 126544); (126547, 126547); (126549, 126550); (126552, 126552);
   (126554, 126554); (126556, 126556); (126558, 126558); (126560, 126560);
   (126563, 126563); (126565, 126566); (126571, 126571); (126579, 126579);
   (126584, 126584); (126589, 126589); (126591, 126591); (126602, 126602);
   (126620, 126624); (126628, 126628); (126634, 126634); (126652, 126703);
   (126706, 126975); (127020, 127023); (127124, 127135); (127151, 127152);
   (127168, 127168); (127184, 127184); (127222, 127231); (127406, 127461);
   (127491, 127503); (127548, 127551); (127561, 127567); (127570, 127583);
   (127590, 127743); (128728, 128732); (128749, 128751); (128765, 128767);
   (128884, 128895); (128985, 128991); (129004, 129007); (129009, 129023);
   (129036, 129039); (129096, 129103); (129114, 129119); (129160, 129167);
   (129198, 129199); (129202, 129279); (129620, 129631); (129646, 129647);
   (129653, 129655); (129661, 129663); (129671, 129679); (129709, 129711);
   (129723, 129727); (129734, 129743); (129754, 129759); (129768, 129775);
   (129783, 129791); (129939, 129939); (129995, 130031); (130042, 131071);
   (173792, 173823); (177977, 177983); (178206, 178207); (183970, 183983);
   (191457, 194559); (195102, 196607); (201547, 917759); (918000, 1114111)]%Z.

Definition printable (cp : Z) : bool :=
  if (cp <=? 127)%Z then (32 <=? cp)%Z && (cp <? 127)%Z
  else negb (existsb (fun r => (fst r <=? cp)%Z && (cp <=? snd r)%Z)
                     unprintable_ranges).

Definition hex_digit (n : Z) : Z := (if n <? 10 then 48 + n else 87 + n)%Z.

(** [width] hexadecimal digits of [n], the most significant first. *)
Fixpoint hex (width : nat) (n : Z) : list Z :=
  match width with
  | O => []
  | S w => hex w (n / 16) ++ [hex_digit (n mod 16)]
  end.

(** One character inside the quotes [quote]. *)
Definition escape (quote cp : Z) : list Z :=
  (if (cp =? quote) || (cp =? 92) then [92; cp]
   else if cp =? 9 then [92; 116]
   else if cp =? 10 then [92; 110]
   else if cp =? 13 then [92; 114]
   else if printable cp then [cp]
   else if cp <? 256 then 92 :: 120 :: hex 2 cp
   else if cp <? 65536 then 92 :: 117 :: hex 4 cp
   else 92 :: 85 :: hex 8 cp)%Z.

(** Single quotes, unless the text holds a single quote and no double
    quote. *)
Definition repr_points (cps : list Z) : list Z :=
  let quote :=
    if existsb (Z.eqb 39) cps && negb (existsb (Z.eqb 34) cps)
    then 34%Z else 39%Z in
  quote :: flat_map (escape quote) cps ++ [quote].

(** UTF-8. *)
Definition utf8_of_point (cp : Z) : list ascii :=
  (if cp <? 128 then [ascii_of_code cp]
   else if cp <? 2048
   then [ascii_of_code (192 + cp / 64); ascii_of_code (128 + cp mod 64)]
   else if cp <? 65536
   then [ascii_of_code (224 + cp / 4096);
         ascii_of_code (128 + (cp / 64) mod 64);
         ascii_of_code (128 + cp mod 64)]
   else [ascii_of_code (240 + cp / 262144);
         ascii_of_code (128 + (cp / 4096) mod 64);
         ascii_of_code (128 + (cp / 64) mod 64);
         ascii_of_code (128 + cp mod 64)])%Z.

Definition text_of_points (cps : list Z) : string :=
  string_of_list_ascii (flat_map utf8_of_point cps).

(** The characters of a text. *)
Definition text_points (text : string) : list Z :=
  match code_points (list_ascii_of_string text) with
  | Some cps => cps
  | None => map code (list_ascii_of_string text)
  end.

Definition py_repr (text : string) : string :=
  text_of_points (repr_points (text_points text)).

(** [repr], cut after [n] characters (the format [%.200R]). *)
Definition py_repr_cut (n : nat) (text : string) : string :=
  text_of_points (firstn n (repr_points (text_points text))).

(** ** [int(text)] in base ten *)

Definition read_sign (cs : list ascii) : bool * list ascii :=
  match cs with
  | "-"%char :: rest => (true, rest)
  | "+"%char :: rest => (false, rest)
  | _ => (false, cs)
  end.

(** The run of digits and single underscores at the head of [cs]:
    the digits and what follows the run, or [None] when two underscores
    meet or the run ends with one. *)
Fixpoint scan_int (after_underscore : bool) (cs : list ascii)
  : option (list ascii * list ascii) :=
  match cs with
  | c :: rest =>
      if Ascii.eqb c "_" then
        if after_underscore then None else scan_int true rest
      else if is_digit c then
        match scan_int false rest with
        | Some (ds, tl) => Some (c :: ds, tl)
        | None => None
        end
      else if after_underscore then None else Some ([], cs)
  | [] => if after_underscore then None else Some ([], [])
  end.

(** The interpreter refuses to convert more than 4300 digits
    ([sys.int_info.default_max_str_digits], CPython 3.11). *)
Definition max_str_digits : nat := 4300.

Definition py_int (text : string) : raises Z :=
  let bad :=
    inl (ValueError
           ("invalid literal for int() with base 10: "
            ++ py_repr_cut 200 text)) in
  match numeral_text text with
  | None => bad
  | Some raw =>
      let '(neg, body) := read_sign (drop_spaces raw) in
      match body with
      | "_"%char :: _ => bad
      | _ =>
          match scan_int false body with
          | None => bad
          | Some (ds, tl) =>
              if Nat.ltb max_str_digits (List.length ds)
              then inl (ValueError
                          ("Exceeds the limit (4300 digits) for integer string conversion: value has "
                           ++ NilEmpty.string_of_uint (Nat.to_uint (List.length ds))
                           ++ " digits; use sys.set_int_max_str_digits() to increase the limit"))
              else
                match ds, drop_spaces tl with
                | _ :: _, [] =>
                    inr (if neg then - digits_value ds else digits_value ds)%Z
                | _, _ => bad
                end
          end
      end
  end.

(** ** [float(text)] and [round(x, 1)] *)

Definition float := spec_float.

(** Quotient of [n] by [d] rounded to the nearest integer, ties to even
    ([0 <= n], [0 < d]). *)
Definition div_half_even (n d : Z) : Z :=
  let q := (n / d)%Z in
  match (2 * (n mod d) ?= d)%Z with
  | Lt => q
  | Gt => (q + 1)%Z
  | Eq => if Z.even q then q else (q + 1)%Z
  end.

(** The binary64 value nearest to [p / q] ([0 <= p], [0 < q]), ties to
    even, with gradual underflow and overflow to infinity. *)
Definition binary64_of_ratio (neg : bool) (p q : Z) : float :=
  if (p =? 0)%Z then S754_zero neg
  else
    let scaled (e : Z) : Z * Z :=
      if (0 <=? e)%Z then (p, q * 2 ^ e)%Z else (p * 2 ^ (- e), q)%Z in
    let floor_at (e : Z) : Z := let '(n, d) := scaled e in (n / d)%Z in
    let e1 := (Z.log2 p - Z.log2 q - 52)%Z in
    let e2 := if (floor_at e1 <? 2 ^ 52)%Z then (e1 - 1)%Z
              else if (2 ^ 53 <=? floor_at e1)%Z then (e1 + 1)%Z
              else e1 in
    let e3 := Z.max e2 (-1074) in
    let m := let '(n, d) := scaled e3 in div_half_even n d in
    let '(m', e') := if (m =? 2 ^ 53)%Z then (2 ^ 52, e3 + 1)%Z else (m, e3) in
    if (m' =? 0)%Z then S754_zero neg
    else if (971 <? e')%Z then S754_infinity neg
    else S754_finite neg (Z.to_pos m') e'.

(** The value of a decimal numeral [digits * 10 ^ exp10]. *)
Definition binary64_of_decimal (neg : bool) (digits exp10 : Z) : float :=
  if (0 <=? exp10)%Z
  then binary64_of_ratio neg (digits * 10 ^ exp10) 1
  else binary64_of_ratio neg digits (10 ^ (- exp10)).

Definition starts_with (word cs : list ascii) : option (list ascii) :=
  if list_eq_dec ascii_dec (map lower (firstn (List.length word) cs)) word
  then Some (skipn (List.length word) cs)
  else None.

(** "inf", "infinity" and "nan" in any letter case, after the sign. *)
Definition parse_inf_or_nan (neg : bool) (cs : list ascii)
  : option (float * list ascii) :=
  match starts_with (list_ascii_of_string "inf") cs with
  | Some rest =>
      match starts_with (list_ascii_of_string "inity") rest with
      | Some rest' => Some (S754_infinity neg, rest')
      | None => Some (S754_infinity neg, rest)
      end
  | None =>
      match starts_with (list_ascii_of_string "nan") cs with
      | Some rest => Some (S754_nan, rest)
      | None => None
      end
  end.

(** An exponent part is read only when it is complete: [e] or [E], an
    optional sign and at least one digit. *)
Definition parse_exponent (cs : list ascii) : Z * list ascii :=
  match cs with
  | c :: rest =>
      if Ascii.eqb (lower c) "e"
      then
        let '(neg, rest1) := read_sign rest in
        match span_digits rest1 with
        | ((_ :: _) as ds, tl) =>
            ((if neg then - digits_value ds else digits_value ds)%Z, tl)
        | _ => (0%Z, cs)
        end
      else (0%Z, cs)
  | [] => (0%Z, cs)
  end.

(** A decimal numeral: digits, an optional point and more digits, an
    optional exponent; at least one digit before the exponent. *)
Definition parse_decimal (neg : bool) (cs : list ascii)
  : option (float * list ascii) :=
  let '(ip, rest1) := span_digits cs in
  let '(fp, rest2) :=
    match rest1 with
    | "."%char :: tl => span_digits tl
    | _ => ([], rest1)
    end in
  match ip ++ fp with
  | [] => None
  | ds =>
      let '(e, rest3) := parse_exponent rest2 in
      Some (binary64_of_decimal neg (digits_value ds)
              (e - Z.of_nat (List.length fp)), rest3)
  end.

Definition string_to_double (cs : list ascii) : option float :=
  let '(neg, body) := read_sign cs in
  let parsed :=
    match parse_decimal neg body with
    | Some r => Some r
    | None => parse_inf_or_nan neg body
    end in
  match parsed with
  | Some (x, []) => Some x
  | _ => None
  end.

(** [float(v)] for [v] a string or [None]. *)
Definition py_float (v : option string) : raises float :=
  match v with
  | None =>
      inl (TypeError "float() argument must be a string or a real number, not 'NoneType'")
  | Some text =>
      let bad :=
        inl (ValueError ("could not convert string to float: " ++ py_repr text)) in
      match numeral_text text with
      | None => bad
      | Some raw =>
          let cs := strip raw in
          let plain :=
            if existsb (Ascii.eqb "_") cs then remove_underscores None cs
            else Some cs in
          match plain with
          | None => bad
          | Some cs' =>
              match string_to_double cs' with
              | Some x => inr x
              | None => bad
              end
          end
      end
  end.

(** [round(x, 1)]: the exact value of [x] is rounded to one digit after
    the decimal point, ties to even, and the decimal result is converted
    back to the nearest binary64 value.  Zeros, infinities and NaN round
    to themselves. *)
Definition py_round1 (x : float) : float :=
  match x with
  | S754_finite neg m e =>
      let '(p, q) :=
        if (0 <=? e)%Z then (Z.pos m * 2 ^ e, 1)%Z
        else (Z.pos m, 2 ^ (- e))%Z in
      binary64_of_ratio neg (div_half_even (10 * p) q) 10
  | _ => x
  end.

(** ** Text and bytes *)

Definition byte_code (b : byte) : Z := Z.of_N (Byte.to_N b).

Definition continuation (b : byte) : bool :=
  (128 <=? byte_code b)%Z && (byte_code b <=? 191)%Z.

(** Well-formed UTF-8: shortest encodings only, no surrogates, nothing
    above U+10FFFF. *)
Fixpoint utf8_valid (bs : bytes) : bool :=
  match bs with
  | [] => true
  | b0 :: r0 =>
      let n := byte_code b0 in
      if (n <=? 127)%Z then utf8_valid r0
      else if (194 <=? n)%Z && (n <=? 223)%Z then
        match r0 with
        | b1 :: r1 => continuation b1 && utf8_valid r1
        | _ => false
        end
      else if (224 <=? n)%Z && (n <=? 239)%Z then
        match r0 with
        | b1 :: b2 :: r2 =>
            continuation b1
            && (negb (n =? 224)%Z || (160 <=? byte_code b1)%Z)
            && (negb (n =? 237)%Z || (byte_code b1 <=? 159)%Z)
            && continuation b2 && utf8_valid r2
        | _ => false
        end
      else if (240 <=? n)%Z && (n <=? 244)%Z then
        match r0 with
        | b1 :: b2 :: b3 :: r3 =>
            continuation b1
            && (negb (n =? 240)%Z || (144 <=? byte_code b1)%Z)
            && (negb (n =? 244)%Z || (byte_code b1 <=? 143)%Z)
            && continuation b2 && continuation b3 && utf8_valid r3
        | _ => false
        end
      else false
  end.

(** [text.encode('utf-8')] *)
Definition encode_utf8 (text : string) : bytes := list_byte_of_string text.

(** [data.decode('utf-8')] *)
Definition decode_utf8 (data : bytes) : raises string :=
  if utf8_valid data then inr (string_of_list_byte data)
  else inl (UnicodeDecodeError "'utf-8' codec can't decode bytes").

(** ** Element trees

    What [xml.etree.ElementTree] builds: a tag, the text before the
    first child ([None] when there is none), the children, and the text
    after the end tag.  Attributes play no part in [run.py] and are left
    out. *)

#[warnings="-register-all"]
Inductive Element : Type :=
  mkElement (tag : string) (text : option string)
            (children : list Element) (tail : option string).

Definition tag (e : Element) : string :=
  match e with mkElement t _ _ _ => t end.
Definition text (e : Element) : option string :=
  match e with mkElement _ x _ _ => x end.
Definition children (e : Element) : list Element :=
  match e with mkElement _ _ cs _ => cs end.

(** [Element.iter()]: the element itself, then its descendants, in
    document order. *)
Fixpoint iter (e : Element) : list Element :=
  match e with
  | mkElement _ _ cs _ => e :: flat_map iter cs
  end.

(** [elem.find(".//name")]: the first element named [name] among the
    descendants of [elem] in document order; [elem] itself is not a
    candidate. *)
Definition find_descendant (name : string) (elem : Element) : option Element :=
  List.find (fun e => String.eqb (tag e) name) (flat_map iter (children elem)).

(** [elem.findtext(name)]: the text of the first child named [name],
    the empty string when that child holds no text, [None] when there is
    no such child. *)
Definition findtext (elem : Element) (name : string) : option string :=
  match List.find (fun e => String.eqb (tag e) name) (children elem) with
  | Some child =>
      match text child with
      | Some s => Some s
      | None => Some ""
      end
  | None => None
  end.

(** ** The world: widgets and history *)

Inductive widget : Type :=
  tb_status | tb_time | tb_vo2 | tb_vco2 | tb_phase | tb_ve | tb_hr.

Definition widget_eq_dec (a b : widget) : {a = b} + {a <> b}.
Proof. decide equality. Defined.

(** A value handed to [Text.insert]. *)
Inductive pyobj : Type :=
| PyNone
| PyStr (s : string)
| PyFloat (x : float)
| PyExn (e : exn).

Inductive event : Type :=
| EvButtonState (state : string)          (* button_enable["state"] = state *)
| EvDelete (w : widget)                   (* w.delete('1.0', tk.END) *)
| EvInsert (w : widget) (v : pyobj)       (* w.insert('1.0', v) *)
| EvConnect (ip_address : string) (port : Z)
| EvSendall (data : bytes)
| EvReply (data : bytes)                  (* what the recv of line 119 returned *)
| EvData (data : bytes)                   (* what a recv of line 125 returned *)
| EvClose.                                (* the with block closes the socket *)

(** The contents of a text box are the pieces inserted since it was
    last emptied, the latest first (every insertion is at index 1.0). *)
Record world : Type := mkWorld {
  contents : widget -> list pyobj;
  button_state : string;
  eb_ip : string;
  eb_port : string;
  history : list event
}.

Definition set_contents (w : widget) (v : list pyobj) (g : world) : world :=
  mkWorld (fun w' => if widget_eq_dec w w' then v else contents g w')
          (button_state g) (eb_ip g) (eb_port g) (history g).

Definition record (ev : event) (g : world) : world :=
  mkWorld (contents g) (button_state g) (eb_ip g) (eb_port g)
          (history g ++ [ev]).

(** The window as the script builds it before the main loop starts. *)
Definition initial_world : world :=
  mkWorld (fun w => match w with
                    | tb_status => [PyStr "Real-time information not enabled"]
                    | _ => []
                    end)
          "normal" "127.0.0.1" "1234" [].

(** ** Computations: state, exceptions, and a read that never returns *)

Inductive result (A : Type) : Type :=
| Ok (a : A)
| Raise (e : exn)
| Hang.
Arguments Ok {A} a.
Arguments Raise {A} e.
Arguments Hang {A}.

Definition M (A : Type) : Type := world -> result A * world.

Definition ret {A} (a : A) : M A := fun g => (Ok a, g).
Definition raise {A} (e : exn) : M A := fun g => (Raise e, g).
Definition hang {A} : M A := fun g => (Hang, g).

Definition bind {A B} (c : M A) (k : A -> M B) : M B :=
  fun g =>
    match c g with
    | (Ok a, g') => k a g'
    | (Raise e, g') => (Raise e, g')
    | (Hang, g') => (Hang, g')
    end.

Notation "x <- c ;; k" := (bind c (fun x => k))
  (at level 61, c at next level, right associativity).
Notation "c ;; k" := (bind c (fun _ => k))
  (at level 61, right associativity).

Definition lift {A} (r : raises A) : M A :=
  match r with
  | inl e => raise e
  | inr a => ret a
  end.

(** [try: body  except Exception as e: handler(e)] *)
Definition try_except {A} (body : M A) (handler : exn -> M A) : M A :=
  fun g =>
    match body g with
    | (Raise e, g') => handler e g'
    | other => other
    end.

(** [with socket.socket(...) as s: body]: the socket is closed when the
    block is left, normally or by an exception. *)
Definition with_socket {A} (body : M A) : M A :=
  fun g =>
    match body g with
    | (Hang, g') => (Hang, g')
    | (r, g') => (r, record EvClose g')
    end.

Definition log (ev : event) : M unit := fun g => (Ok tt, record ev g).

Definition text_delete (w : widget) : M unit :=
  fun g => (Ok tt, record (EvDelete w) (set_contents w [] g)).

(** [None] ends the argument list of a Tcl call, so inserting [None]
    is a call with too few arguments, which Tk rejects. *)
Definition text_insert (w : widget) (v : pyobj) : M unit :=
  match v with
  | PyNone => raise (TclError "wrong # args: should be insert index chars")
  | _ => fun g => (Ok tt, record (EvInsert w v) (set_contents w (v :: contents g w) g))
  end.

Definition str_or_none (v : option string) : pyobj :=
  match v with
  | Some s => PyStr s
  | None => PyNone
  end.

(** ** The network as the routine sees it

    The peer and the operating system decide whether [connect] and
    [sendall] succeed, which bytes are waiting at each read, and how the
    stream ends once they are used up. *)

Inductive stream_end : Type :=
| PeerCloses            (* orderly shutdown: every further recv returns b'' *)
| PeerSilent            (* nothing more arrives: recv never returns *)
| ReadFails (e : exn).  (* recv raises *)

Record network : Type := mkNetwork {
  connect_error : option exn;
  sendall_error : option exn;
  arrivals : list bytes;
  ending : stream_end
}.

Fixpoint chunks_of_aux (fuel bufsize : nat) (data : bytes) : list bytes :=
  match fuel with
  | O => []
  | S fuel' =>
      match data with
      | [] => []
      | _ => firstn bufsize data :: chunks_of_aux fuel' bufsize (skipn bufsize data)
      end
  end.

(** [recv(bufsize)] returns at most [bufsize] of the waiting bytes; the
    rest stays for the next call. *)
Definition chunks_of (bufsize : nat) (data : bytes) : list bytes :=
  chunks_of_aux (List.length data) bufsize data.

(** The successive results of [recv(bufsize)] while data keeps coming. *)
Definition reads (bufsize : nat) (net : network) : list bytes :=
  flat_map (chunks_of bufsize) (arrivals net).

Definition connect (net : network) (ip_address : string) (port : Z) : M unit :=
  log (EvConnect ip_address port) ;;
  match connect_error net with
  | Some e => raise e
  | None => ret tt
  end.

Definition sendall (net : network) (data : bytes) : M unit :=
  log (EvSendall data) ;;
  match sendall_error net with
  | Some e => raise e
  | None => ret tt
  end.

(** One [recv]: the next chunk and what is left, or the way the stream
    ends.  A closed stream yields the empty chunk, again and again. *)
Definition recv {A} (mark : bytes -> event) (pending : list bytes)
    (fin : stream_end) (k : bytes -> list bytes -> M A) : M A :=
  match pending with
  | data :: rest => log (mark data) ;; k data rest
  | [] =>
      match fin with
      | PeerCloses => log (mark []) ;; k [] []
      | PeerSilent => hang
      | ReadFails e => raise e
      end
  end.

(** Line 105. *)
Definition message : string :=
  "<OmniaXB><System><EnableRealTimeInformation><Enabled>1</Enabled></EnableRealTimeInformation></System></OmniaXB>".

(** Line 108. *)
Definition byte_message : bytes := encode_utf8 message.

(** [button_enable["state"] = state] *)
Definition button_configure (state : string) : M unit :=
  fun g => (Ok tt, record (EvButtonState state)
                     (mkWorld (contents g) state (eb_ip g) (eb_port g)
                              (history g))).

(** [str(eb_ip.get())] and [eb_port.get()] *)
Definition entry_get_ip : M string := fun g => (Ok (eb_ip g), g).
Definition entry_get_port : M string := fun g => (Ok (eb_port g), g).

Section Session.

(** The XML parser of the library, on a chunk that is not empty. *)
Variable xml_parser : bytes -> raises Element.

(** [ET.fromstring]: an empty chunk holds no element. *)
Definition ET_fromstring (data : bytes) : raises Element :=
  match data with
  | [] => inl (ParseError "no element found")
  | _ => xml_parser data
  end.

(** Lines 29-79. *)
Definition parse_xml (xml_bytes : bytes) : M unit :=
  et_root <- lift (ET_fromstring xml_bytes) ;;
  match find_descendant "SetRealTimeInfo" et_root with
  | Some set_real_time_info =>
      let timestamp := findtext set_real_time_info "TimeStamp" in
      text_delete tb_time ;;
      text_insert tb_time (str_or_none timestamp) ;;
      let vo2 := findtext set_real_time_info "VO2" in
      text_delete tb_vo2 ;;
      vo2_value <- lift (py_float vo2) ;;
      text_insert tb_vo2 (PyFloat (py_round1 vo2_value)) ;;
      let vco2 := findtext set_real_time_info "VCO2" in
      text_delete tb_vco2 ;;
      vco2_value <- lift (py_float vco2) ;;
      text_insert tb_vco2 (PyFloat (py_round1 vco2_value)) ;;
      let phase := findtext set_real_time_info "PHASE" in
      text_delete tb_phase ;;
      text_insert tb_phase (str_or_none phase) ;;
      let ve := findtext set_real_time_info "VE" in
      text_delete tb_ve ;;
      ve_value <- lift (py_float ve) ;;
      text_insert tb_ve (PyFloat (py_round1 ve_value)) ;;
      let hr := findtext set_real_time_info "HR" in
      text_delete tb_hr ;;
      text_insert tb_hr (str_or_none hr)
  | None => ret tt
  end.

(** Lines 124-126: [while True: data = s.recv(1024); parse_xml(data)].
    The loop has no exit of its own.  On a closed stream the empty
    chunk makes [parse_xml] raise; were it to return, the same empty
    read would repeat for ever. *)
Fixpoint receive_loop (pending : list bytes) (fin : stream_end) : M unit :=
  match pending with
  | data :: rest =>
      log (EvData data) ;; parse_xml data ;; receive_loop rest fin
  | [] =>
      match fin with
      | PeerCloses => log (EvData []) ;; parse_xml [] ;; hang
      | PeerSilent => hang
      | ReadFails e => raise e
      end
  end.

(** Lines 120-126: the first reply is shown in the status box, then
    the loop starts. *)
Definition after_reply (fin : stream_end) (omnia_reply : bytes)
    (rest : list bytes) : M unit :=
  text_delete tb_status ;;
  reply_text <- lift (decode_utf8 omnia_reply) ;;
  text_insert tb_status (PyStr reply_text) ;;
  receive_loop rest fin.

(** Lines 112-126, the body of the [try] block: connect, send the
    command, read the first reply, go on with [after_reply]. *)
Definition session (net : network) (ip_address : string) (port : Z)
  : M unit :=
  connect net ip_address port ;;
  sendall net byte_message ;;
  recv EvReply (reads 1024 net) (ending net) (after_reply (ending net)).

(** Lines 128-131, the handler. *)
Definition display_exception (e : exn) : M unit :=
  text_delete tb_status ;;
  text_insert tb_status (PyExn e).

(** Lines 82-131. *)
Definition enable_click (net : network) : M unit :=
  button_configure "disabled" ;;
  ip_address <- entry_get_ip ;;
  port_text <- entry_get_port ;;
  port <- lift (py_int port_text) ;;
  with_socket
    (try_except (session net ip_address port) display_exception).

End Session.

(** ** A reference XML parser for a fragment of XML

    The fragment: one root element, start tags without attributes, end
    tags, empty-element tags, character data, white space around the
    root; printable ASCII, tab and line feed only.  Declarations,
    comments, processing instructions, entity references, namespaces,
    attributes, carriage returns, "]" and bytes outside ASCII are
    outside the fragment: there [parse_fragment] answers [None] and says
    nothing about the library.  Inside the fragment it follows the
    library: the parser's well-formedness rules and the way the tree
    builder attaches text and tails. *)

Module RefParser.

Record open_element : Type := mkOpen {
  o_tag : string;
  o_text : option string;
  o_children : list Element          (* the latest first *)
}.

Record builder : Type := mkBuilder {
  stack : list open_element;         (* the innermost first *)
  data : list ascii;                 (* pending text, the latest first *)
  after_end : bool;                  (* the last tag seen was an end tag *)
  root : option Element              (* the finished root *)
}.

Definition empty_builder : builder := mkBuilder [] [] false None.

Inductive mode : Type :=
| Prolog
| Content
| Epilog
| TagOpen
| StartName (name : list ascii)      (* the latest first *)
| StartSpace (name : list ascii)
| EmptySlash (name : list ascii)
| EndOpen
| EndName (name : list ascii)
| EndSpace (name : list ascii).

Inductive step_result : Type :=
| Next (m : mode) (b : builder)
| NotWellFormed
| OutsideFragment.

Definition is_letter (c : ascii) : bool :=
  in_range 65 90 c || in_range 97 122 c.
Definition is_name_start (c : ascii) : bool :=
  is_letter c || Ascii.eqb c "_".
Definition is_name_char (c : ascii) : bool :=
  is_name_start c || is_digit c || Ascii.eqb c "-" || Ascii.eqb c ".".
Definition is_xml_space (c : ascii) : bool :=
  (code c =? 32)%Z || (code c =? 9)%Z || (code c =? 10)%Z.
Definition in_fragment (c : ascii) : bool :=
  (is_xml_space c || in_range 33 126 c)
  && negb (Ascii.eqb c "&") && negb (Ascii.eqb c "]").

Definition name_of (name : list ascii) : string :=
  string_of_list_ascii (rev name).

Definition set_tail (e : Element) (s : string) : Element :=
  match e with mkElement t x cs _ => mkElement t x cs (Some s) end.

(** The pending text becomes the text of the open element, or the
    tail of the element closed last. *)
Definition flush (b : builder) : builder :=
  match data b, stack b with
  | _ :: _, top :: below =>
      let s := string_of_list_ascii (rev (data b)) in
      let top' :=
        if after_end b
        then match o_children top with
             | last :: before =>
                 mkOpen (o_tag top) (o_text top) (set_tail last s :: before)
             | [] => top
             end
        else mkOpen (o_tag top) (Some s) (o_children top) in
      mkBuilder (top' :: below) [] (after_end b) (root b)
  | _, _ => mkBuilder (stack b) [] (after_end b) (root b)
  end.

Definition start (name : string) (b : builder) : builder :=
  let b' := flush b in
  mkBuilder (mkOpen name None [] :: stack b') [] false (root b').

(** [None] when the end tag does not match the open element. *)
Definition finish (name : string) (b : builder) : option builder :=
  match stack b with
  | top :: _ =>
      if String.eqb (o_tag top) name
      then
        match stack (flush b) with
        | top' :: below =>
            let e := mkElement (o_tag top') (o_text top')
                               (rev (o_children top')) None in
            match below with
            | parent :: rest =>
                Some (mkBuilder
                        (mkOpen (o_tag parent) (o_text parent)
                                (e :: o_children parent) :: rest)
                        [] true None)
            | [] => Some (mkBuilder [] [] true (Some e))
            end
        | [] => None
        end
      else None
  | [] => None
  end.

Definition after_tag (b : builder) : mode :=
  match root b with
  | Some _ => Epilog
  | None => Content
  end.

Definition close_tag (name : list ascii) (b : builder) : step_result :=
  match finish (name_of name) b with
  | Some b' => Next (after_tag b') b'
  | None => NotWellFormed
  end.

Definition step (m : mode) (b : builder) (c : ascii) : step_result :=
  match m with
  | Prolog | Epilog =>
      if is_xml_space c then Next m b
      else if Ascii.eqb c "<" then Next TagOpen b
      else NotWellFormed
  | Content =>
      if Ascii.eqb c "<" then Next TagOpen b
      else Next Content (mkBuilder (stack b) (c :: data b) (after_end b) (root b))
  | TagOpen =>
      if Ascii.eqb c "!" || Ascii.eqb c "?" then OutsideFragment
      else if Ascii.eqb c "/" then
        match stack b with
        | [] => NotWellFormed
        | _ => Next EndOpen b
        end
      else if is_name_start c then
        match root b with
        | Some _ => NotWellFormed        (* junk after document element *)
        | None => Next (StartName [c]) b
        end
      else NotWellFormed
  | StartName name =>
      if is_name_char c then Next (StartName (c :: name)) b
      else if is_xml_space c then Next (StartSpace name) b
      else if Ascii.eqb c ">" then Next Content (start (name_of name) b)
      else if Ascii.eqb c "/" then Next (EmptySlash name) b
      else if Ascii.eqb c ":" then OutsideFragment
      else NotWellFormed
  | StartSpace name =>
      if is_xml_space c then Next (StartSpace name) b
      else if Ascii.eqb c ">" then Next Content (start (name_of name) b)
      else if Ascii.eqb c "/" then Next (EmptySlash name) b
      else OutsideFragment               (* attributes *)
  | EmptySlash name =>
      if Ascii.eqb c ">" then close_tag name (start (name_of name) b)
      else NotWellFormed
  | EndOpen =>
      if is_name_start c then Next (EndName [c]) b
      else NotWellFormed
  | EndName name =>
      if is_name_char c then Next (EndName (c :: name)) b
      else if is_xml_space c then Next (EndSpace name) b
      else if Ascii.eqb c ">" then close_tag name b
      else if Ascii.eqb c ":" then OutsideFragment
      else NotWellFormed
  | EndSpace name =>
      if is_xml_space c then Next (EndSpace name) b
      else if Ascii.eqb c ">" then close_tag name b
      else NotWellFormed
  end.

Fixpoint run (cs : list ascii) (m : mode) (b : builder)
  : option (raises Element) :=
  match cs with
  | [] =>
      Some (match m, root b with
            | Epilog, Some e => inr e
            | _, _ => inl (ParseError "no element found or unclosed token")
            end)
  | c :: rest =>
      if in_fragment c
      then match step m b c with
           | Next m' b' => run rest m' b'
           | NotWellFormed => Some (inl (ParseError "not well-formed"))
           | OutsideFragment => None
           end
      else None
  end.

Definition parse_fragment (xml_bytes : bytes) : option (raises Element) :=
  run (map ascii_of_byte xml_bytes) Prolog empty_builder.

(** A total parser to run examples with.  Outside the fragment it
    carries no information about the library; every example below
    comes with the fact that its chunks are inside the fragment. *)
Definition parser (xml_bytes : bytes) : raises Element :=
  match parse_fragment xml_bytes with
  | Some r => r
  | None => inl (ParseError "outside the fragment")
  end.

Definition inside (xml_bytes : bytes) : bool :=
  match parse_fragment xml_bytes with
  | Some _ => true
  | None => false
  end.

End RefParser.


(** ** Vocabulary for the statements *)

(** The world after [w.delete('1.0', tk.END)]. *)
Definition emptied (w : widget) (g : world) : world :=
  record (EvDelete w) (set_contents w [] g).

(** The world after [w.delete('1.0', tk.END)] and [w.insert('1.0', v)]. *)
Definition shows (w : widget) (v : pyobj) (g : world) : world :=
  let g1 := emptied w g in
  record (EvInsert w v) (set_contents w (v :: contents g1 w) g1).

(** The chunks of a history that the receive loop read and the parser
    accepted as one document each: the frames the loop extracted. *)
Definition frames (parser : bytes -> raises Element) (h : list event)
  : list bytes :=
  flat_map (fun ev =>
              match ev with
              | EvData d =>
                  match ET_fromstring parser d with
                  | inr _ => [d]
                  | inl _ => []
                  end
              | _ => []
              end) h.

(** A chunk that [parse_xml] handles without raising. *)
Definition decodes (parser : bytes -> raises Element) (d : bytes) : Prop :=
  forall g, fst (parse_xml parser d g) = Ok tt.

(** The element that [parse_xml] decodes in a chunk, if any. *)
Definition decoded_element (parser : bytes -> raises Element) (d : bytes)
  : option Element :=
  match ET_fromstring parser d with
  | inr root => find_descendant "SetRealTimeInfo" root
  | inl _ => None
  end.

(** ** Example traffic *)

(** The document of the specification's round-trip example. *)
Definition example_document : bytes :=
  list_byte_of_string
    "<OmniaXB><RealTimeData><SetRealTimeInfo><TimeStamp>00:01:23</TimeStamp><VO2>2345.678</VO2><VCO2>1987.321</VCO2><PHASE>EX</PHASE><VE>45.6789</VE><HR>142</HR></SetRealTimeInfo></RealTimeData></OmniaXB>".

(** A telemetry message with the given field texts. *)
Definition telemetry (ts vo2 vco2 phase ve hr : string) : bytes :=
  list_byte_of_string
    ("<OmniaXB><RealTimeData><SetRealTimeInfo><TimeStamp>" ++ ts
     ++ "</TimeStamp><VO2>" ++ vo2 ++ "</VO2><VCO2>" ++ vco2
     ++ "</VCO2><PHASE>" ++ phase ++ "</PHASE><VE>" ++ ve
     ++ "</VE><HR>" ++ hr
     ++ "</HR></SetRealTimeInfo></RealTimeData></OmniaXB>")%string.

(** The same six fields with SetRealTimeInfo as the root of the
    document. *)
Definition root_level_document : bytes :=
  list_byte_of_string
    "<SetRealTimeInfo><TimeStamp>00:01:23</TimeStamp><VO2>2345.678</VO2><VCO2>1987.321</VCO2><PHASE>EX</PHASE><VE>45.6789</VE><HR>142</HR></SetRealTimeInfo>".

Definition six_fields : list Element :=
  [mkElement "TimeStamp" (Some "00:01:23") [] None;
   mkElement "VO2" (Some "2345.678") [] None;
   mkElement "VCO2" (Some "1987.321") [] None;
   mkElement "PHASE" (Some "EX") [] None;
   mkElement "VE" (Some "45.6789") [] None;
   mkElement "HR" (Some "142") [] None].

(** A message that is not telemetry. *)
Definition other_document : bytes :=
  list_byte_of_string "<OmniaXB><System><Status>Ready</Status></System></OmniaXB>".

(** The binary64 value a decimal literal denotes. *)
Definition literal (s : string) : float :=
  match py_float (Some s) with
  | inr x => x
  | inl _ => S754_nan
  end.

(** Telemetry whose VO2, respectively VCO2, is not a number. *)
Definition bad_vo2_document : bytes :=
  telemetry "00:01:23" "abc" "1987.321" "EX" "45.6789" "142".
Definition bad_vco2_document : bytes :=
  telemetry "00:01:23" "2345.678" "abc" "EX" "45.6789" "142".

(** A later, well-formed telemetry message. *)
Definition next_document : bytes :=
  telemetry "00:01:24" "2350.04" "1990.96" "EX" "46.25" "143".

(** The world once the button has been disabled (line 98). *)
Definition pressed (g : world) : world :=
  record (EvButtonState "disabled")
         (mkWorld (contents g) "disabled" (eb_ip g) (eb_port g) (history g)).

(** Events that only touch a text box. *)
Definition widget_event (ev : event) : Prop :=
  match ev with
  | EvDelete _ | EvInsert _ _ => True
  | _ => False
  end.

(** A computation all of whose events satisfy [P]. *)
Definition appends {A} (P : event -> Prop) (c : M A) : Prop :=
  forall g, exists evs,
    history (snd (c g)) = history g ++ evs /\ Forall P evs.

(** A computation that touches text boxes and nothing else. *)
Definition quiet {A} (c : M A) : Prop := appends widget_event c.


Definition is_connect (ev : event) : bool :=
  match ev with
  | EvConnect _ _ => true
  | _ => false
  end.

Definition not_connect (ev : event) : Prop := is_connect ev = false.

(** The example document cut in two in the middle of a tag. *)
Definition first_half : bytes := firstn 100 example_document.
Definition second_half : bytes := skipn 100 example_document.

(** The frames the receive loop extracts from the given reads, starting
    from the initial window, when nothing else arrives. *)
Definition loop_frames (parser : bytes -> raises Element)
    (chunks : list bytes) : list bytes :=
  frames parser
    (history (snd (receive_loop parser chunks PeerSilent initial_world))).

(** The SetRealTimeInfo element of [bad_vco2_document]. *)
Definition bad_vco2_element : Element :=
  mkElement "SetRealTimeInfo" None
    [mkElement "TimeStamp" (Some "00:01:23") [] None;
     mkElement "VO2" (Some "2345.678") [] None;
     mkElement "VCO2" (Some "abc") [] None;
     mkElement "PHASE" (Some "EX") [] None;
     mkElement "VE" (Some "45.6789") [] None;
     mkElement "HR" (Some "142") [] None] None.

(** The SetRealTimeInfo element of [next_document]. *)
Definition next_element : Element :=
  mkElement "SetRealTimeInfo" None
    [mkElement "TimeStamp" (Some "00:01:24") [] None;
     mkElement "VO2" (Some "2350.04") [] None;
     mkElement "VCO2" (Some "1990.96") [] None;
     mkElement "PHASE" (Some "EX") [] None;
     mkElement "VE" (Some "46.25") [] None;
     mkElement "HR" (Some "143") [] None] None.

(** What [float("abc")] raises. *)
Definition not_a_float : exn :=
  ValueError "could not convert string to float: 'abc'".

(** The SetRealTimeInfo element of [example_document]. *)
Definition example_element : Element :=
  mkElement "SetRealTimeInfo" None six_fields None.

(** The command of line 105 as bytes on the wire, written out. *)
Definition enable_real_time_command : bytes :=
    [x3c; x4f; x6d; x6e; x69; x61; x58; x42; x3e; x3c; x53; x79; x73; x74;
     x65; x6d; x3e; x3c; x45; x6e; x61; x62; x6c; x65; x52; x65; x61; x6c;
     x54; x69; x6d; x65; x49; x6e; x66; x6f; x72; x6d; x61; x74; x69; x6f;
     x6e; x3e; x3c; x45; x6e; x61; x62; x6c; x65; x64; x3e; x31; x3c; x2f;
     x45; x6e; x61; x62; x6c; x65; x64; x3e; x3c; x2f; x45; x6e; x61; x62;
     x6c; x65; x52; x65; x61; x6c; x54; x69; x6d; x65; x49; x6e; x66; x6f;
     x72; x6d; x61; x74; x69; x6f; x6e; x3e; x3c; x2f; x53; x79; x73; x74;
     x65; x6d; x3e; x3c; x2f; x4f; x6d; x6e; x69; x61; x58; x42; x3e]%byte.

(** The world once the command has been sent and the first reply shown
    in the status box. *)
Definition greeted (ip_address : string) (port : Z) (reply : bytes)
    (reply_text : string) (g : world) : world :=
  shows tb_status (PyStr reply_text)
    (record (EvReply reply)
       (record (EvSendall byte_message)
          (record (EvConnect ip_address port) g))).

(** A first reply of the device. *)
Definition reply_document : bytes :=
  list_byte_of_string
    "<OmniaXB><System><EnableRealTimeInformation><Result>OK</Result></EnableRealTimeInformation></System></OmniaXB>".

(** What the operating system reports when nobody listens. *)
Definition refused : exn := mkExn "ConnectionRefusedError" "[Errno 111] Connection refused".
Definition reset : exn := mkExn "ConnectionResetError" "[Errno 104] Connection reset by peer".
Definition broken_pipe : exn := mkExn "BrokenPipeError" "[Errno 32] Broken pipe".

(** Three thousand bytes of start tags that are never closed. *)
Definition flood : bytes :=
  List.concat (repeat (list_byte_of_string "<a>") 1000).

(** A session in which the reply and one telemetry message arrive and
    the stream then ends as [fin] says. *)
Definition short_network (fin : stream_end) : network :=
  mkNetwork None None [reply_document; example_document] fin.

Definition short_run (fin : stream_end) : result unit * world :=
  enable_click RefParser.parser (short_network fin) initial_world.

(** A session in which, after the reply, the peer floods the client
    with start tags and nothing else. *)
Definition flood_network : network :=
  mkNetwork None None [reply_document; flood; flood] PeerSilent.

(** A session in which a message with an unreadable VO2 is followed by
    a well-formed one. *)
Definition bad_then_good_network : network :=
  mkNetwork None None [reply_document; bad_vo2_document; next_document]
            PeerSilent.

(** The SetRealTimeInfo element of [bad_vo2_document]. *)
Definition bad_vo2_element : Element :=
  mkElement "SetRealTimeInfo" None
    [mkElement "TimeStamp" (Some "00:01:23") [] None;
     mkElement "VO2" (Some "abc") [] None;
     mkElement "VCO2" (Some "1987.321") [] None;
     mkElement "PHASE" (Some "EX") [] None;
     mkElement "VE" (Some "45.6789") [] None;
     mkElement "HR" (Some "142") [] None] None.

(** The chunks that the receive loop read, in order. *)
Definition data_read (h : list event) : list bytes :=
  flat_map (fun ev => match ev with EvData d => [d] | _ => [] end) h.

(** ** Vocabulary for further properties *)

(** The six boxes that [parse_xml] writes. *)
Definition telemetry_box (w : widget) : Prop := w <> tb_status.

(** [g'] comes from [g] by emptying and filling boxes among [allowed]
    and by recording events among [logged]: the button and the two
    entries are never involved. *)
Inductive redrawn (allowed : widget -> Prop) (logged : event -> Prop)
  : world -> world -> Prop :=
| redrawn_refl g : redrawn allowed logged g g
| redrawn_shows g g' w v :
    allowed w -> redrawn allowed logged g g' ->
    redrawn allowed logged g (shows w v g')
| redrawn_emptied g g' w :
    allowed w -> redrawn allowed logged g g' ->
    redrawn allowed logged g (emptied w g')
| redrawn_record g g' ev :
    logged ev -> redrawn allowed logged g g' ->
    redrawn allowed logged g (record ev g').

(** An event that empties or fills one of the six telemetry boxes. *)
Definition telemetry_event (ev : event) : Prop :=
  match ev with
  | EvDelete w | EvInsert w _ => w <> tb_status
  | _ => False
  end.

(** What inserting [None] into a text box raises, and what [float(None)]
    raises. *)
Definition missing_text : exn :=
  TclError "wrong # args: should be insert index chars".
Definition missing_number : exn :=
  TypeError "float() argument must be a string or a real number, not 'NoneType'".

(** A child of SetRealTimeInfo with the given name and text. *)
Definition field (name value : string) : Element :=
  mkElement name (Some value) [] None.

(** The chunks that [recv] returned, first reply included, in order. *)
Definition chunks_received (h : list event) : list bytes :=
  flat_map (fun ev =>
              match ev with
              | EvReply d | EvData d => [d]
              | _ => []
              end) h.

(** A reply that is not UTF-8. *)
Definition latin1_reply : bytes := [x4f; x4b; xe9]%byte.

(** Telemetry with the TimeStamp child left out, and with the VO2 child
    left out. *)
Definition no_timestamp_document : bytes :=
  list_byte_of_string
    "<OmniaXB><SetRealTimeInfo><VO2>2345.678</VO2><VCO2>1987.321</VCO2><PHASE>EX</PHASE><VE>45.6789</VE><HR>142</HR></SetRealTimeInfo></OmniaXB>".
Definition no_timestamp_element : Element :=
  mkElement "SetRealTimeInfo" None
    [field "VO2" "2345.678"; field "VCO2" "1987.321"; field "PHASE" "EX";
     field "VE" "45.6789"; field "HR" "142"] None.
Definition no_vo2_document : bytes :=
  list_byte_of_string
    "<OmniaXB><SetRealTimeInfo><TimeStamp>00:01:23</TimeStamp><VCO2>1987.321</VCO2><PHASE>EX</PHASE><VE>45.6789</VE><HR>142</HR></SetRealTimeInfo></OmniaXB>".
Definition no_vo2_element : Element :=
  mkElement "SetRealTimeInfo" None
    [field "TimeStamp" "00:01:23"; field "VCO2" "1987.321";
     field "PHASE" "EX"; field "VE" "45.6789"; field "HR" "142"] None.

(** A window whose port entry does not hold a number. *)
Definition window_with_port (port_text : string) : world :=
  mkWorld (contents initial_world) (button_state initial_world)
          (eb_ip initial_world) port_text (history initial_world).

(** No restriction. *)
Definition anything {A} (x : A) : Prop := True.

(** At most [k] chunks, all empty: what a closed connection yields. *)
Definition closing (k : nat) (tail : list bytes) : Prop :=
  Forall (fun d => d = []) tail /\ List.length tail <= k.

(** One redrawing of a box: filled with a value, or left empty. *)
Definition redraw (op : widget * option pyobj) (g : world) : world :=
  match op with
  | (w, Some v) => shows w v g
  | (w, None) => emptied w g
  end.

Fixpoint redraw_all (ops : list (widget * option pyobj)) (g : world) : world :=
  match ops with
  | [] => g
  | op :: rest => redraw_all rest (redraw op g)
  end.

(** What a box holds after the redrawings [ops], if they reach it;
    [acc] is what is known from earlier ones. *)
Fixpoint painted (w : widget) (ops : list (widget * option pyobj))
    (acc : option (list pyobj)) : option (list pyobj) :=
  match ops with
  | [] => acc
  | (w', o) :: rest =>
      painted w rest
        (if widget_eq_dec w' w
         then Some (match o with Some v => [v] | None => [] end)
         else acc)
  end.

(** A plain decimal numeral: digits, a point, digits. *)
Definition plain_decimal (ip fp : list ascii) : string :=
  string_of_list_ascii (ip ++ "."%char :: fp).

(** The two runs of digits of a plain decimal numeral; the first is not
    empty. *)
Definition decimal_digits (ip fp : list ascii) : Prop :=
  ip <> []
  /\ Forall (fun c => is_digit c = true) ip
  /\ Forall (fun c => is_digit c = true) fp.
(** * Properties *)

(** ** General facts about the embedding *)

(** Closed statements are settled by evaluation, one conjunct at a time. *)
Ltac evaluate :=
  repeat match goal with |- _ /\ _ => split end; vm_compute; reflexivity.

Lemma iter_unfold (e : Element) : iter e = e :: flat_map iter (children e).
Proof. destruct e; reflexivity. Qed.

Lemma find_all_false {A} (f : A -> bool) (l : list A) :
  (forall x, In x l -> f x = false) -> List.find f l = None.
Proof.
  induction l as [|a l IH]; intros H; simpl; [reflexivity|].
  rewrite (H a (or_introl eq_refl)). apply IH. intros x Hx. apply H. now right.
Qed.

Lemma bind_ok {A B} (c : M A) (k : A -> M B) g a g' :
  c g = (Ok a, g') -> bind c k g = k a g'.
Proof. unfold bind. now intros ->. Qed.

Lemma bind_raise {A B} (c : M A) (k : A -> M B) g e g' :
  c g = (Raise e, g') -> bind c k g = (Raise e, g').
Proof. unfold bind. now intros ->. Qed.

Lemma bind_hang {A B} (c : M A) (k : A -> M B) g g' :
  c g = (Hang, g') -> bind c k g = (Hang, g').
Proof. unfold bind. now intros ->. Qed.

Lemma ET_fromstring_empty parser :
  ET_fromstring parser [] = inl (ParseError "no element found").
Proof. reflexivity. Qed.

(** The empty chunk, which is what a closed connection delivers, makes
    [parse_xml] raise before anything is displayed. *)
Lemma parse_xml_empty parser g :
  parse_xml parser [] g = (Raise (ParseError "no element found"), g).
Proof. reflexivity. Qed.

(** A chunk the parser rejects changes nothing. *)
Lemma parse_xml_rejected parser data e g :
  ET_fromstring parser data = inl e ->
  parse_xml parser data g = (Raise e, g).
Proof. intros H. unfold parse_xml. now rewrite H. Qed.

(** ** The message counts as unrecognised when no element is found *)

Lemma find_descendant_none name root :
  (forall e, In e (iter root) -> tag e <> name) ->
  find_descendant name root = None.
Proof.
  intros H. unfold find_descendant. apply find_all_false.
  intros x Hx. apply String.eqb_neq. apply H.
  rewrite iter_unfold. now right.
Qed.

Lemma parse_xml_unrecognised parser data root g :
  ET_fromstring parser data = inr root ->
  find_descendant "SetRealTimeInfo" root = None ->
  parse_xml parser data g = (Ok tt, g).
Proof. intros H1 H2. unfold parse_xml. rewrite H1. cbn. now rewrite H2. Qed.

(** One turn of the loop on a chunk that decodes. *)
Lemma receive_loop_step parser data rest fin g g' :
  parse_xml parser data (record (EvData data) g) = (Ok tt, g') ->
  receive_loop parser (data :: rest) fin g = receive_loop parser rest fin g'.
Proof.
  intros H. cbn [receive_loop]. unfold bind at 1. cbn [log].
  now rewrite (bind_ok _ _ _ _ _ H).
Qed.

(** One turn of the loop on a chunk that makes [parse_xml] raise. *)
Lemma receive_loop_stop parser data rest fin g e g' :
  parse_xml parser data (record (EvData data) g) = (Raise e, g') ->
  receive_loop parser (data :: rest) fin g = (Raise e, g').
Proof.
  intros H. cbn [receive_loop]. unfold bind at 1. cbn [log].
  now rewrite (bind_raise _ _ _ _ _ H).
Qed.

(** ** What [parse_xml] does to the widgets *)

(** One box: emptied, then filled. *)
Lemma show_step {A} w v (k : M A) g :
  v <> PyNone ->
  (text_delete w ;; text_insert w v ;; k) g = k (shows w v g).
Proof. intros Hv. destruct v; [now contradiction Hv | | |]; reflexivity. Qed.

Lemma show_last w v g :
  v <> PyNone ->
  (text_delete w ;; text_insert w v) g = (Ok tt, shows w v g).
Proof. intros Hv. destruct v; [now contradiction Hv | | |]; reflexivity. Qed.

(** One box holding a number: emptied, then the text is read, then the
    rounded value is inserted. *)
Lemma show_float_step {A} w r (k : M A) g :
  (text_delete w ;;
   x <- lift r ;;
   text_insert w (PyFloat (py_round1 x)) ;; k) g
  = match r with
    | inl e => (Raise e, emptied w g)
    | inr x => k (shows w (PyFloat (py_round1 x)) g)
    end.
Proof. destruct r; reflexivity. Qed.

Lemma contents_shows w v g w' :
  contents (shows w v g) w' = if widget_eq_dec w w' then [v] else contents g w'.
Proof.
  unfold shows, emptied. cbn. destruct (widget_eq_dec w w'); [|reflexivity].
  destruct (widget_eq_dec w w); [reflexivity | contradiction].
Qed.

Lemma contents_emptied w g w' :
  contents (emptied w g) w' = if widget_eq_dec w w' then [] else contents g w'.
Proof. reflexivity. Qed.

Lemma contents_record ev g w : contents (record ev g) w = contents g w.
Proof. reflexivity. Qed.

Lemma history_shows w v g :
  history (shows w v g) = history g ++ [EvDelete w; EvInsert w v].
Proof. unfold shows, emptied. cbn. now rewrite <- app_assoc. Qed.

Lemma history_emptied w g : history (emptied w g) = history g ++ [EvDelete w].
Proof. reflexivity. Qed.

(** Reads the boxes of a world built from [shows] and [emptied]. *)
Ltac boxes :=
  repeat split;
  rewrite ?contents_record, ?contents_emptied, ?contents_shows; reflexivity.

Section Decoding.

Variable parser : bytes -> raises Element.
Variables (data : bytes) (elem : Element).
Hypothesis Helem : decoded_element parser data = Some elem.

Lemma decoded_element_root :
  exists root, ET_fromstring parser data = inr root
               /\ find_descendant "SetRealTimeInfo" root = Some elem.
Proof.
  unfold decoded_element in Helem.
  destruct (ET_fromstring parser data) as [e|root]; [discriminate|].
  now exists root.
Qed.

Ltac enter :=
  destruct decoded_element_root as (root & Hroot & Hfind);
  unfold parse_xml; rewrite Hroot; cbn [lift]; unfold bind at 1;
  cbn [ret]; rewrite Hfind.

(** All six fields present and the three numbers readable. *)
Lemma parse_xml_complete ts x1 x2 ph x3 hr g :
  findtext elem "TimeStamp" = Some ts ->
  py_float (findtext elem "VO2") = inr x1 ->
  py_float (findtext elem "VCO2") = inr x2 ->
  findtext elem "PHASE" = Some ph ->
  py_float (findtext elem "VE") = inr x3 ->
  findtext elem "HR" = Some hr ->
  parse_xml parser data g
  = (Ok tt,
     shows tb_hr (PyStr hr)
       (shows tb_ve (PyFloat (py_round1 x3))
          (shows tb_phase (PyStr ph)
             (shows tb_vco2 (PyFloat (py_round1 x2))
                (shows tb_vo2 (PyFloat (py_round1 x1))
                   (shows tb_time (PyStr ts) g)))))).
Proof.
  intros H1 H2 H3 H4 H5 H6. enter.
  rewrite H1, H4, H6. cbn [str_or_none].
  rewrite show_step by discriminate.
  rewrite show_float_step, H2.
  rewrite show_float_step, H3.
  rewrite show_step by discriminate.
  rewrite show_float_step, H5.
  now rewrite show_last by discriminate.
Qed.

(** The number in VO2 cannot be read. *)
Lemma parse_xml_bad_vo2 ts err g :
  findtext elem "TimeStamp" = Some ts ->
  py_float (findtext elem "VO2") = inl err ->
  parse_xml parser data g
  = (Raise err, emptied tb_vo2 (shows tb_time (PyStr ts) g)).
Proof.
  intros H1 H2. enter. rewrite H1. cbn [str_or_none].
  rewrite show_step by discriminate.
  now rewrite show_float_step, H2.
Qed.

(** The number in VCO2 cannot be read. *)
Lemma parse_xml_bad_vco2 ts x1 err g :
  findtext elem "TimeStamp" = Some ts ->
  py_float (findtext elem "VO2") = inr x1 ->
  py_float (findtext elem "VCO2") = inl err ->
  parse_xml parser data g
  = (Raise err,
     emptied tb_vco2
       (shows tb_vo2 (PyFloat (py_round1 x1))
          (shows tb_time (PyStr ts) g))).
Proof.
  intros H1 H2 H3. enter. rewrite H1. cbn [str_or_none].
  rewrite show_step by discriminate.
  rewrite show_float_step, H2.
  now rewrite show_float_step, H3.
Qed.

(** The number in VE cannot be read. *)
Lemma parse_xml_bad_ve ts x1 x2 ph err g :
  findtext elem "TimeStamp" = Some ts ->
  py_float (findtext elem "VO2") = inr x1 ->
  py_float (findtext elem "VCO2") = inr x2 ->
  findtext elem "PHASE" = Some ph ->
  py_float (findtext elem "VE") = inl err ->
  parse_xml parser data g
  = (Raise err,
     emptied tb_ve
       (shows tb_phase (PyStr ph)
          (shows tb_vco2 (PyFloat (py_round1 x2))
             (shows tb_vo2 (PyFloat (py_round1 x1))
                (shows tb_time (PyStr ts) g))))).
Proof.
  intros H1 H2 H3 H4 H5. enter. rewrite H1, H4. cbn [str_or_none].
  rewrite show_step by discriminate.
  rewrite show_float_step, H2.
  rewrite show_float_step, H3.
  rewrite show_step by discriminate.
  now rewrite show_float_step, H5.
Qed.

End Decoding.

(** C9. Decoding writes the six boxes in the order TimeStamp, VO2, VCO2,
    PHASE, VE, HR, each by a delete followed by an insert, and the
    update is not atomic: when the text of a numeric field cannot be
    read as a float, the boxes before it in that order already show the
    values of the new frame and the boxes after it still hold what they
    held before ([parse_xml] raises at that field). *)
Theorem C9_fields_updated_in_order_not_atomically
    parser (data : bytes) (elem : Element) (ts : string) (g : world) :
  decoded_element parser data = Some elem ->
  findtext elem "TimeStamp" = Some ts ->
  (forall x1 x2 ph x3 hr,
      py_float (findtext elem "VO2") = inr x1 ->
      py_float (findtext elem "VCO2") = inr x2 ->
      findtext elem "PHASE" = Some ph ->
      py_float (findtext elem "VE") = inr x3 ->
      findtext elem "HR" = Some hr ->
      exists g',
        parse_xml parser data g = (Ok tt, g')
        /\ history g'
           = history g
             ++ [EvDelete tb_time; EvInsert tb_time (PyStr ts);
                 EvDelete tb_vo2; EvInsert tb_vo2 (PyFloat (py_round1 x1));
                 EvDelete tb_vco2; EvInsert tb_vco2 (PyFloat (py_round1 x2));
                 EvDelete tb_phase; EvInsert tb_phase (PyStr ph);
                 EvDelete tb_ve; EvInsert tb_ve (PyFloat (py_round1 x3));
                 EvDelete tb_hr; EvInsert tb_hr (PyStr hr)])
  /\ (forall err,
         py_float (findtext elem "VO2") = inl err ->
         exists g',
           parse_xml parser data g = (Raise err, g')
           /\ contents g' tb_time = [PyStr ts]
           /\ contents g' tb_vco2 = contents g tb_vco2
           /\ contents g' tb_phase = contents g tb_phase
           /\ contents g' tb_ve = contents g tb_ve
           /\ contents g' tb_hr = contents g tb_hr)
  /\ (forall x1 err,
         py_float (findtext elem "VO2") = inr x1 ->
         py_float (findtext elem "VCO2") = inl err ->
         exists g',
           parse_xml parser data g = (Raise err, g')
           /\ contents g' tb_time = [PyStr ts]
           /\ contents g' tb_vo2 = [PyFloat (py_round1 x1)]
           /\ contents g' tb_phase = contents g tb_phase
           /\ contents g' tb_ve = contents g tb_ve
           /\ contents g' tb_hr = contents g tb_hr)
  /\ (forall x1 x2 ph err,
         py_float (findtext elem "VO2") = inr x1 ->
         py_float (findtext elem "VCO2") = inr x2 ->
         findtext elem "PHASE" = Some ph ->
         py_float (findtext elem "VE") = inl err ->
         exists g',
           parse_xml parser data g = (Raise err, g')
           /\ contents g' tb_time = [PyStr ts]
           /\ contents g' tb_vo2 = [PyFloat (py_round1 x1)]
           /\ contents g' tb_vco2 = [PyFloat (py_round1 x2)]
           /\ contents g' tb_phase = [PyStr ph]
           /\ contents g' tb_hr = contents g tb_hr).
Proof.
  intros Helem Hts. repeat split.
  - intros x1 x2 ph x3 hr H2 H3 H4 H5 H6. eexists. split.
    + eapply parse_xml_complete; eassumption.
    + rewrite !history_shows, <- !app_assoc. reflexivity.
  - intros err H2. eexists. split.
    + eapply parse_xml_bad_vo2; eassumption.
    + boxes.
  - intros x1 err H2 H3. eexists. split.
    + eapply parse_xml_bad_vco2; eassumption.
    + boxes.
  - intros x1 x2 ph err H2 H3 H4 H5. eexists. split.
    + eapply parse_xml_bad_ve; eassumption.
    + boxes.
Qed.

Lemma C9_witness :
  decoded_element RefParser.parser bad_vco2_document = Some bad_vco2_element
  /\ findtext bad_vco2_element "TimeStamp" = Some "00:01:23"
  /\ py_float (findtext bad_vco2_element "VO2") = inr (literal "2345.678")
  /\ py_float (findtext bad_vco2_element "VCO2") = inl not_a_float
  /\ exists g',
      parse_xml RefParser.parser bad_vco2_document initial_world
      = (Raise not_a_float, g')
      /\ contents g' tb_time = [PyStr "00:01:23"]
      /\ contents g' tb_vo2 = [PyFloat (py_round1 (literal "2345.678"))]
      /\ contents g' tb_phase = contents initial_world tb_phase
      /\ contents g' tb_ve = contents initial_world tb_ve
      /\ contents g' tb_hr = contents initial_world tb_hr.
Proof.
  assert (H0 : decoded_element RefParser.parser bad_vco2_document
               = Some bad_vco2_element) by (vm_compute; reflexivity).
  assert (H1 : findtext bad_vco2_element "TimeStamp" = Some "00:01:23")
    by reflexivity.
  assert (H2 : py_float (findtext bad_vco2_element "VO2")
               = inr (literal "2345.678")) by (vm_compute; reflexivity).
  assert (H3 : py_float (findtext bad_vco2_element "VCO2") = inl not_a_float)
    by (vm_compute; reflexivity).
  repeat (split; [assumption|]).
  exact (proj1 (proj2 (proj2
           (C9_fields_updated_in_order_not_atomically
              RefParser.parser bad_vco2_document bad_vco2_element
              "00:01:23" initial_world H0 H1)))
           (literal "2345.678") not_a_float H2 H3).
Defined.

(** ** A frame that is not telemetry *)

(** The caller of [parse_xml] is told nothing about a frame without a
    SetRealTimeInfo element: the call returns [None] as it does for a
    frame that was decoded, no exception is raised, no event is
    recorded, and the status box keeps its text. *)
Lemma C4_counterexample :
  RefParser.inside other_document = true
  /\ decoded_element RefParser.parser other_document = None
  /\ parse_xml RefParser.parser other_document initial_world
     = (Ok tt, initial_world)
  /\ fst (parse_xml RefParser.parser example_document initial_world) = Ok tt
  /\ history (snd (parse_xml RefParser.parser other_document initial_world))
     = []
  /\ contents (snd (parse_xml RefParser.parser other_document initial_world))
       tb_status
     = [PyStr "Real-time information not enabled"].
Proof. evaluate. Qed.

(** C4, as the code has it.  A frame with no SetRealTimeInfo element
    anywhere in its tree is passed over in silence: [parse_xml] returns
    normally, with the result it gives for a decoded frame, and leaves
    every widget and the history as they were.  The receive loop then
    reads the next chunk and handles it as it would have without the
    frame in between: a chunk that decodes is displayed and the loop
    goes on, an exception it raises ends the loop, and when nothing
    more arrives the loop waits in [recv]. *)
Theorem C4_unrecognised_frame_skipped
    parser (data : bytes) (root : Element) (g : world) :
  ET_fromstring parser data = inr root ->
  (forall e, In e (iter root) -> tag e <> "SetRealTimeInfo") ->
  parse_xml parser data g = (Ok tt, g)
  /\ (forall next rest fin g',
         parse_xml parser next (record (EvData next) (record (EvData data) g))
         = (Ok tt, g') ->
         receive_loop parser (data :: next :: rest) fin g
         = receive_loop parser rest fin g')
  /\ (forall next rest fin err g',
         parse_xml parser next (record (EvData next) (record (EvData data) g))
         = (Raise err, g') ->
         receive_loop parser (data :: next :: rest) fin g = (Raise err, g'))
  /\ (forall next elem ts x1 x2 ph x3 hr,
         decoded_element parser next = Some elem ->
         findtext elem "TimeStamp" = Some ts ->
         py_float (findtext elem "VO2") = inr x1 ->
         py_float (findtext elem "VCO2") = inr x2 ->
         findtext elem "PHASE" = Some ph ->
         py_float (findtext elem "VE") = inr x3 ->
         findtext elem "HR" = Some hr ->
         receive_loop parser [data; next] PeerSilent g
         = (Hang,
            shows tb_hr (PyStr hr)
              (shows tb_ve (PyFloat (py_round1 x3))
                 (shows tb_phase (PyStr ph)
                    (shows tb_vco2 (PyFloat (py_round1 x2))
                       (shows tb_vo2 (PyFloat (py_round1 x1))
                          (shows tb_time (PyStr ts)
                             (record (EvData next)
                                (record (EvData data) g)))))))))
  /\ receive_loop parser [data] PeerSilent g = (Hang, record (EvData data) g)
  /\ (forall err,
         receive_loop parser [data] (ReadFails err) g
         = (Raise err, record (EvData data) g)).
Proof.
  intros Hroot Hnone.
  pose proof (find_descendant_none _ _ Hnone) as Hfind.
  assert (Hskip : forall g0, parse_xml parser data g0 = (Ok tt, g0))
    by (intros g0; now apply parse_xml_unrecognised with (root := root)).
  assert (Hturn : forall rest fin,
             receive_loop parser (data :: rest) fin g
             = receive_loop parser rest fin (record (EvData data) g))
    by (intros rest fin; apply receive_loop_step, Hskip).
  split; [apply Hskip|]. split; [|split; [|split; [|split]]].
  - intros next rest fin g' Hnext. rewrite Hturn.
    now apply receive_loop_step.
  - intros next rest fin err g' Hnext. rewrite Hturn.
    now apply receive_loop_stop.
  - intros next elem ts x1 x2 ph x3 hr Helem H1 H2 H3 H4 H5 H6.
    rewrite Hturn.
    rewrite (receive_loop_step parser next [] PeerSilent _ _
               (parse_xml_complete parser next elem Helem ts x1 x2 ph x3 hr
                  _ H1 H2 H3 H4 H5 H6)).
    reflexivity.
  - now rewrite Hturn.
  - intros err. now rewrite Hturn.
Qed.

Lemma C4_witness :
  ET_fromstring RefParser.parser other_document
  = inr (mkElement "OmniaXB" None
           [mkElement "System" None
              [mkElement "Status" (Some "Ready") [] None] None] None)
  /\ parse_xml RefParser.parser other_document initial_world
     = (Ok tt, initial_world)
  /\ receive_loop RefParser.parser [other_document; next_document]
       PeerSilent initial_world
     = (Hang,
        shows tb_hr (PyStr "143")
          (shows tb_ve (PyFloat (py_round1 (literal "46.25")))
             (shows tb_phase (PyStr "EX")
                (shows tb_vco2 (PyFloat (py_round1 (literal "1990.96")))
                   (shows tb_vo2 (PyFloat (py_round1 (literal "2350.04")))
                      (shows tb_time (PyStr "00:01:24")
                         (record (EvData next_document)
                            (record (EvData other_document)
                               initial_world)))))))).
Proof.
  assert (H0 : ET_fromstring RefParser.parser other_document
               = inr (mkElement "OmniaXB" None
                        [mkElement "System" None
                           [mkElement "Status" (Some "Ready") [] None] None]
                        None)) by (vm_compute; reflexivity).
  assert (H1 : forall e,
             In e (iter (mkElement "OmniaXB" None
                           [mkElement "System" None
                              [mkElement "Status" (Some "Ready") [] None] None]
                           None)) ->
             tag e <> "SetRealTimeInfo")
    by (simpl; intros e [<-|[<-|[<-|[]]]]; simpl; discriminate).
  assert (H2 : decoded_element RefParser.parser next_document
               = Some next_element) by (vm_compute; reflexivity).
  split; [exact H0|].
  split; [exact (proj1 (C4_unrecognised_frame_skipped RefParser.parser
                          other_document _ initial_world H0 H1))|].
  apply (proj1 (proj2 (proj2 (proj2
           (C4_unrecognised_frame_skipped RefParser.parser other_document _
              initial_world H0 H1)))) next_document next_element
           "00:01:24" (literal "2350.04") (literal "1990.96") "EX"
           (literal "46.25") "143" H2);
    vm_compute; reflexivity.
Defined.

(** ** Decoding a complete frame *)

(** X15. The element decoded is the first SetRealTimeInfo element
    below the root in document order.  When it has all six children and
    the texts of VO2, VCO2 and VE read as floats, [parse_xml] shows
    TimeStamp, PHASE and HR as the text found (HR is not read as a
    number) and VO2, VCO2 and VE as floats rounded to one decimal place,
    and leaves the status box alone; the document of the
    specification's example shows "00:01:23", 2345.7, 1987.3, "EX", 45.7
    and "142". *)
Theorem X15_wrapped_frame_decoded :
  (forall parser (data : bytes) (elem : Element)
          (ts vo2 vco2 ph ve hr : string) (x1 x2 x3 : float) (g : world),
      decoded_element parser data = Some elem ->
      findtext elem "TimeStamp" = Some ts ->
      findtext elem "VO2" = Some vo2 -> py_float (Some vo2) = inr x1 ->
      findtext elem "VCO2" = Some vco2 -> py_float (Some vco2) = inr x2 ->
      findtext elem "PHASE" = Some ph ->
      findtext elem "VE" = Some ve -> py_float (Some ve) = inr x3 ->
      findtext elem "HR" = Some hr ->
      exists g',
        parse_xml parser data g = (Ok tt, g')
        /\ contents g' tb_time = [PyStr ts]
        /\ contents g' tb_vo2 = [PyFloat (py_round1 x1)]
        /\ contents g' tb_vco2 = [PyFloat (py_round1 x2)]
        /\ contents g' tb_phase = [PyStr ph]
        /\ contents g' tb_ve = [PyFloat (py_round1 x3)]
        /\ contents g' tb_hr = [PyStr hr]
        /\ contents g' tb_status = contents g tb_status)
  /\ RefParser.inside example_document = true
  /\ exists g',
       parse_xml RefParser.parser example_document initial_world = (Ok tt, g')
       /\ contents g' tb_time = [PyStr "00:01:23"]
       /\ contents g' tb_vo2 = [PyFloat (literal "2345.7")]
       /\ contents g' tb_vco2 = [PyFloat (literal "1987.3")]
       /\ contents g' tb_phase = [PyStr "EX"]
       /\ contents g' tb_ve = [PyFloat (literal "45.7")]
       /\ contents g' tb_hr = [PyStr "142"].
Proof.
  split; [|split].
  - intros parser data elem ts vo2 vco2 ph ve hr x1 x2 x3 g
           Helem Hts Hvo2 Hx1 Hvco2 Hx2 Hph Hve Hx3 Hhr.
    rewrite <- Hvo2 in Hx1. rewrite <- Hvco2 in Hx2. rewrite <- Hve in Hx3.
    eexists. split.
    + eapply parse_xml_complete; eassumption.
    + boxes.
  - vm_compute; reflexivity.
  - assert (H0 : decoded_element RefParser.parser example_document
                 = Some example_element) by (vm_compute; reflexivity).
    eexists. split.
    + apply (parse_xml_complete RefParser.parser example_document
               example_element H0 "00:01:23" (literal "2345.678")
               (literal "1987.321") "EX" (literal "45.6789") "142");
        vm_compute; reflexivity.
    + evaluate.
Qed.

Lemma X15_witness :
  decoded_element RefParser.parser next_document = Some next_element
  /\ exists g',
       parse_xml RefParser.parser next_document initial_world = (Ok tt, g')
       /\ contents g' tb_time = [PyStr "00:01:24"]
       /\ contents g' tb_vo2 = [PyFloat (py_round1 (literal "2350.04"))]
       /\ contents g' tb_vco2 = [PyFloat (py_round1 (literal "1990.96"))]
       /\ contents g' tb_phase = [PyStr "EX"]
       /\ contents g' tb_ve = [PyFloat (py_round1 (literal "46.25"))]
       /\ contents g' tb_hr = [PyStr "143"]
       /\ contents g' tb_status = contents initial_world tb_status.
Proof.
  assert (H0 : decoded_element RefParser.parser next_document
               = Some next_element) by (vm_compute; reflexivity).
  split; [exact H0|].
  apply (proj1 X15_wrapped_frame_decoded RefParser.parser next_document
           next_element "00:01:24" "2350.04" "1990.96" "EX" "46.25" "143"
           (literal "2350.04") (literal "1990.96") (literal "46.25")
           initial_world H0);
    vm_compute; reflexivity.
Defined.

(** Rounding to one decimal place, on the values of the examples; a tie
    goes to the even digit. *)
Lemma rounding_examples :
  py_round1 (literal "2345.678") = literal "2345.7"
  /\ py_round1 (literal "1987.321") = literal "1987.3"
  /\ py_round1 (literal "45.6789") = literal "45.7"
  /\ py_round1 (literal "46.25") = literal "46.2"
  /\ py_round1 (literal "0.25") = literal "0.2"
  /\ py_round1 (literal "-0.04") = S754_zero true.
Proof. evaluate. Qed.

(** C3. The claim fails in the code for a frame whose root is the
    SetRealTimeInfo element.  The document below is accepted by the
    parser, its root is a SetRealTimeInfo element with all six children,
    and the three numbers read as floats; yet [parse_xml] returns
    without decoding it: the search [.//SetRealTimeInfo] looks below the
    root only, so no box is written and nothing is recorded.  The same
    six fields wrapped in an OmniaXB element are decoded. *)
Theorem C3_root_level_frame_not_decoded :
  RefParser.parse_fragment root_level_document
  = Some (inr (mkElement "SetRealTimeInfo" None six_fields None))
  /\ map (findtext (mkElement "SetRealTimeInfo" None six_fields None))
         ["TimeStamp"; "VO2"; "VCO2"; "PHASE"; "VE"; "HR"]
     = [Some "00:01:23"; Some "2345.678"; Some "1987.321"; Some "EX";
        Some "45.6789"; Some "142"]
  /\ py_float (Some "2345.678") = inr (literal "2345.678")
  /\ py_float (Some "1987.321") = inr (literal "1987.321")
  /\ py_float (Some "45.6789") = inr (literal "45.6789")
  /\ find_descendant "SetRealTimeInfo"
       (mkElement "SetRealTimeInfo" None six_fields None) = None
  /\ parse_xml RefParser.parser root_level_document initial_world
     = (Ok tt, initial_world)
  /\ map (contents initial_world)
         [tb_time; tb_vo2; tb_vco2; tb_phase; tb_ve; tb_hr]
     = [[]; []; []; []; []; []]
  /\ decoded_element RefParser.parser example_document
     = Some (mkElement "SetRealTimeInfo" None six_fields None).
Proof. evaluate. Qed.

(** ** Histories *)

Lemma frames_app parser h1 h2 :
  frames parser (h1 ++ h2) = frames parser h1 ++ frames parser h2.
Proof. apply flat_map_app. Qed.

Lemma frames_widget_events parser evs :
  Forall widget_event evs -> frames parser evs = [].
Proof.
  induction 1 as [|ev evs Hev _ IH]; [reflexivity|].
  destruct ev; try contradiction; exact IH.
Qed.

Lemma chunks_received_app h1 h2 :
  chunks_received (h1 ++ h2) = chunks_received h1 ++ chunks_received h2.
Proof. apply flat_map_app. Qed.

Lemma chunks_received_widget_events evs :
  Forall widget_event evs -> chunks_received evs = [].
Proof.
  induction 1 as [|ev evs Hev _ IH]; [reflexivity|].
  destruct ev; try contradiction; exact IH.
Qed.

Section Appends.

Context {P : event -> Prop}.

Lemma appends_ret {A} (a : A) : appends P (ret a).
Proof. intros g. exists []. now rewrite app_nil_r. Qed.

Lemma appends_raise {A} (e : exn) : appends P (@raise A e).
Proof. intros g. exists []. now rewrite app_nil_r. Qed.

Lemma appends_hang {A} : appends P (@hang A).
Proof. intros g. exists []. now rewrite app_nil_r. Qed.

Lemma appends_lift {A} (r : raises A) : appends P (lift r).
Proof. destruct r; [apply appends_raise | apply appends_ret]. Qed.

Lemma appends_log ev : P ev -> appends P (log ev).
Proof. intros H g. exists [ev]. split; [reflexivity|]. now repeat constructor. Qed.

Lemma appends_bind {A B} (c : M A) (k : A -> M B) :
  appends P c -> (forall a, appends P (k a)) -> appends P (bind c k).
Proof.
  intros Hc Hk g. destruct (Hc g) as (evs1 & H1 & F1). unfold bind.
  destruct (c g) as [[a|e|] g1]; cbn [snd] in *.
  - destruct (Hk a g1) as (evs2 & H2 & F2).
    exists (evs1 ++ evs2). split.
    + now rewrite H2, H1, app_assoc.
    + now apply Forall_app.
  - now exists evs1.
  - now exists evs1.
Qed.

Lemma appends_try_except {A} (body : M A) handler :
  appends P body -> (forall e, appends P (handler e)) ->
  appends P (try_except body handler).
Proof.
  intros Hc Hk g. destruct (Hc g) as (evs1 & H1 & F1). unfold try_except.
  destruct (body g) as [[a|e|] g1]; cbn [snd] in *.
  - now exists evs1.
  - destruct (Hk e g1) as (evs2 & H2 & F2).
    exists (evs1 ++ evs2). split.
    + now rewrite H2, H1, app_assoc.
    + now apply Forall_app.
  - now exists evs1.
Qed.

Lemma appends_with_socket {A} (body : M A) :
  P EvClose -> appends P body -> appends P (with_socket body).
Proof.
  intros HP Hc g. destruct (Hc g) as (evs1 & H1 & F1). unfold with_socket.
  destruct (body g) as [[a|e|] g1]; cbn [snd record history] in *;
    try (exists (evs1 ++ [EvClose]); split;
         [now rewrite H1, app_assoc
         | apply Forall_app; split; [assumption | now repeat constructor]]).
  now exists evs1.
Qed.

End Appends.

Lemma appends_weaken {A} (P Q : event -> Prop) (c : M A) :
  (forall ev, P ev -> Q ev) -> appends P c -> appends Q c.
Proof.
  intros HPQ Hc g. destruct (Hc g) as (evs & H & F). exists evs.
  split; [exact H|]. eapply Forall_impl; eassumption.
Qed.

Lemma quiet_delete w : quiet (text_delete w).
Proof.
  intros g. exists [EvDelete w]. split; [reflexivity|]. now repeat constructor.
Qed.

Lemma quiet_insert w v : quiet (text_insert w v).
Proof.
  destruct v; try apply appends_raise;
    intros g; eexists [EvInsert w _]; (split; [reflexivity|]);
    now repeat constructor.
Qed.

Ltac quiet_step :=
  first [ apply appends_ret | apply appends_raise | apply appends_hang
        | apply appends_lift | apply quiet_delete | apply quiet_insert ].

(** [parse_xml] touches text boxes only. *)
Lemma parse_xml_quiet parser data : quiet (parse_xml parser data).
Proof.
  unfold quiet, parse_xml. apply appends_bind; [quiet_step|].
  intros root.
  destruct (find_descendant "SetRealTimeInfo" root) as [elem|];
    [|quiet_step].
  repeat (apply appends_bind; [quiet_step | intros ?]).
  quiet_step.
Qed.

Lemma parse_xml_frames parser data g :
  frames parser (history (snd (parse_xml parser data g)))
  = frames parser (history g).
Proof.
  destruct (parse_xml_quiet parser data g) as (evs & -> & F).
  now rewrite frames_app, (frames_widget_events _ _ F), app_nil_r.
Qed.

Lemma decodes_document parser d :
  decodes parser d -> exists root, ET_fromstring parser d = inr root.
Proof.
  intros H. destruct (ET_fromstring parser d) as [e|root] eqn:E.
  - specialize (H initial_world).
    rewrite (parse_xml_rejected _ _ _ _ E) in H. discriminate.
  - now exists root.
Qed.

Lemma decodes_run parser d g :
  decodes parser d -> exists g', parse_xml parser d g = (Ok tt, g').
Proof.
  intros H. specialize (H g). destruct (parse_xml parser d g) as [r g'].
  cbn in H. subst r. now exists g'.
Qed.

(** ** The receive loop *)

(** One turn of the loop. *)
Lemma receive_loop_cons parser d rest fin g :
  receive_loop parser (d :: rest) fin g
  = match parse_xml parser d (record (EvData d) g) with
    | (Ok _, g1) => receive_loop parser rest fin g1
    | (Raise e, g1) => (Raise e, g1)
    | (Hang, g1) => (Hang, g1)
    end.
Proof.
  cbn [receive_loop]. unfold bind, log.
  now destruct (parse_xml parser d (record (EvData d) g)) as [[[]|e|] g1].
Qed.

(** The loop never returns: it is left by an exception or not at all. *)
Lemma receive_loop_never_returns parser pending fin g :
  fst (receive_loop parser pending fin g) <> Ok tt.
Proof.
  revert g. induction pending as [|d rest IH]; intros g.
  - destruct fin; cbn; discriminate.
  - rewrite receive_loop_cons.
    destruct (parse_xml parser d (record (EvData d) g)) as [[[]|e|] g1];
      [apply IH | discriminate | discriminate].
Qed.

(** The loop over chunks that all decode: each is one frame. *)
Lemma receive_loop_decodes parser good g :
  Forall (decodes parser) good ->
  exists g1,
    (forall rest fin,
        receive_loop parser (good ++ rest) fin g
        = receive_loop parser rest fin g1)
    /\ frames parser (history g1) = frames parser (history g) ++ good.
Proof.
  intros H. revert g. induction H as [|d good Hd _ IH]; intros g.
  - exists g. split; [reflexivity|]. now rewrite app_nil_r.
  - destruct (decodes_run parser d (record (EvData d) g) Hd) as (g0 & Hrun).
    destruct (IH g0) as (g1 & Hloop & Hframes).
    exists g1. split.
    + intros rest fin. cbn [app].
      rewrite (receive_loop_step _ _ _ _ _ _ Hrun). apply Hloop.
    + rewrite Hframes.
      assert (frames parser (history g0)
              = frames parser (history (record (EvData d) g))) as ->.
      { rewrite <- (parse_xml_frames parser d (record (EvData d) g)).
        now rewrite Hrun. }
      cbn [record history]. rewrite frames_app. cbn.
      destruct (decodes_document _ _ Hd) as (root & ->).
      cbn. now rewrite <- app_assoc.
Qed.

(** ** Chunks and frames *)

(** The same bytes give different frames when they are cut differently:
    the example document read in one piece is one frame, read in two
    pieces it is none (the first piece is rejected and the loop ends);
    two documents read one after the other are two frames, read as one
    chunk they are none. *)
Lemma C1_counterexample :
  List.concat [first_half; second_half] = List.concat [example_document]
  /\ forallb RefParser.inside
       [example_document; first_half; second_half; next_document;
        example_document ++ next_document] = true
  /\ loop_frames RefParser.parser [example_document] = [example_document]
  /\ loop_frames RefParser.parser [first_half; second_half] = []
  /\ loop_frames RefParser.parser [example_document; next_document]
     = [example_document; next_document]
  /\ loop_frames RefParser.parser [example_document ++ next_document] = [].
Proof. evaluate. Qed.

(** C1, as the code has it.  The loop has no reassembly stage: each
    read is handed to the parser as it is.  When every chunk read is by
    itself one document that decodes, the frames extracted are exactly
    the chunks, in order.  A chunk the parser rejects (part of a
    document, or more than one document) ends the loop with the parser's
    exception: no frame is extracted from it or from anything after
    it. *)
Theorem C1_each_chunk_is_one_frame
    parser (good : list bytes) (g : world) :
  Forall (decodes parser) good ->
  (exists g1,
      receive_loop parser good PeerSilent g = (Hang, g1)
      /\ frames parser (history g1) = frames parser (history g) ++ good)
  /\ (forall bad e rest fin,
         ET_fromstring parser bad = inl e ->
         exists g1,
           receive_loop parser (good ++ bad :: rest) fin g = (Raise e, g1)
           /\ frames parser (history g1) = frames parser (history g) ++ good).
Proof.
  intros Hgood.
  destruct (receive_loop_decodes parser good g Hgood) as (g1 & Hloop & Hfr).
  split.
  - exists g1. split; [|exact Hfr].
    rewrite <- (app_nil_r good) at 1. now rewrite Hloop.
  - intros bad e rest fin Hbad.
    exists (record (EvData bad) g1). split.
    + rewrite Hloop. apply receive_loop_stop.
      now apply parse_xml_rejected.
    + cbn [record history]. rewrite frames_app, Hfr. cbn.
      rewrite Hbad. cbn. now rewrite app_nil_r.
Qed.

Lemma example_documents_decode :
  Forall (decodes RefParser.parser) [example_document; other_document].
Proof. repeat constructor; intros g; vm_compute; reflexivity. Qed.

Lemma C1_witness :
  Forall (decodes RefParser.parser) [example_document; other_document]
  /\ ET_fromstring RefParser.parser first_half
     = inl (ParseError "no element found or unclosed token")
  /\ (exists g1,
         receive_loop RefParser.parser [example_document; other_document]
           PeerSilent initial_world = (Hang, g1)
         /\ frames RefParser.parser (history g1)
            = [example_document; other_document])
  /\ (exists g1,
         receive_loop RefParser.parser
           ([example_document; other_document]
              ++ first_half :: [second_half]) PeerSilent initial_world
         = (Raise (ParseError "no element found or unclosed token"), g1)
         /\ frames RefParser.parser (history g1)
            = [example_document; other_document]).
Proof.
  split; [exact example_documents_decode|].
  split; [vm_compute; reflexivity|].
  destruct (C1_each_chunk_is_one_frame RefParser.parser
              [example_document; other_document] initial_world
              example_documents_decode) as [Ha Hb].
  split; [exact Ha|].
  apply Hb. vm_compute; reflexivity.
Defined.

(** ** The session *)

Lemma widget_not_connect ev : widget_event ev -> not_connect ev.
Proof. destruct ev; simpl; intros H; try contradiction; reflexivity. Qed.

Lemma parse_xml_no_connect parser d : appends not_connect (parse_xml parser d).
Proof.
  apply appends_weaken with (P := widget_event);
    [exact widget_not_connect | apply parse_xml_quiet].
Qed.

Lemma text_delete_no_connect w : appends not_connect (text_delete w).
Proof.
  apply appends_weaken with (P := widget_event);
    [exact widget_not_connect | apply quiet_delete].
Qed.

Lemma text_insert_no_connect w v : appends not_connect (text_insert w v).
Proof.
  apply appends_weaken with (P := widget_event);
    [exact widget_not_connect | apply quiet_insert].
Qed.

Lemma receive_loop_no_connect parser pending fin :
  appends not_connect (receive_loop parser pending fin).
Proof.
  induction pending as [|d rest IH]; cbn [receive_loop].
  - destruct fin.
    + apply appends_bind; [now apply appends_log|]. intros _.
      apply appends_bind; [apply parse_xml_no_connect|]. intros _.
      apply appends_hang.
    + apply appends_hang.
    + apply appends_raise.
  - apply appends_bind; [now apply appends_log|]. intros _.
    apply appends_bind; [apply parse_xml_no_connect|]. intros _. exact IH.
Qed.

Lemma display_exception_no_connect e : appends not_connect (display_exception e).
Proof.
  apply appends_bind; [apply text_delete_no_connect|]. intros _.
  apply text_insert_no_connect.
Qed.

Lemma recv_appends {A} (P : event -> Prop) mark pending fin
    (k : bytes -> list bytes -> M A) :
  (forall d, P (mark d)) ->
  (forall d rest, appends P (k d rest)) ->
  appends P (recv mark pending fin k).
Proof.
  intros Hm Hk. unfold recv. destruct pending as [|d rest].
  - destruct fin; [|apply appends_hang|apply appends_raise].
    apply appends_bind; [now apply appends_log|]. intros _. apply Hk.
  - apply appends_bind; [now apply appends_log|]. intros _. apply Hk.
Qed.

Lemma after_reply_no_connect parser fin d rest :
  appends not_connect (after_reply parser fin d rest).
Proof.
  unfold after_reply.
  apply appends_bind; [apply text_delete_no_connect|]. intros _.
  apply appends_bind; [apply appends_lift|]. intros txt.
  apply appends_bind; [apply text_insert_no_connect|]. intros _.
  apply receive_loop_no_connect.
Qed.

(** The steps of the [try] block, one after the other. *)
Lemma session_unfold parser net ip port g :
  session parser net ip port g
  = match connect_error net with
    | Some e => (Raise e, record (EvConnect ip port) g)
    | None =>
        match sendall_error net with
        | Some e =>
            (Raise e,
             record (EvSendall byte_message) (record (EvConnect ip port) g))
        | None =>
            recv EvReply (reads 1024 net) (ending net)
              (after_reply parser (ending net))
              (record (EvSendall byte_message)
                 (record (EvConnect ip port) g))
        end
    end.
Proof.
  unfold session, connect, sendall, bind, log.
  destruct (connect_error net); [reflexivity|].
  destruct (sendall_error net); reflexivity.
Qed.

(** Showing the first reply. *)
Lemma after_reply_unfold parser fin d rest g :
  after_reply parser fin d rest g
  = match decode_utf8 d with
    | inl e => (Raise e, emptied tb_status g)
    | inr txt => receive_loop parser rest fin (shows tb_status (PyStr txt) g)
    end.
Proof. unfold after_reply, bind. destruct (decode_utf8 d); reflexivity. Qed.

(** After the connection attempt, the session makes no other. *)
Lemma session_connects_once parser net ip port g :
  exists evs,
    history (snd (session parser net ip port g))
    = history g ++ EvConnect ip port :: evs
    /\ Forall not_connect evs.
Proof.
  rewrite session_unfold.
  destruct (connect_error net).
  { exists []. split; [reflexivity | constructor]. }
  destruct (sendall_error net).
  { exists [EvSendall byte_message]. split.
    - cbn. now rewrite <- app_assoc.
    - now repeat constructor. }
  destruct (recv_appends not_connect EvReply (reads 1024 net) (ending net)
              (after_reply parser (ending net))
              (fun _ => eq_refl)
              (after_reply_no_connect parser (ending net))
              (record (EvSendall byte_message)
                 (record (EvConnect ip port) g))) as (evs & H & F).
  exists (EvSendall byte_message :: evs). split.
  - rewrite H. cbn. now rewrite <- !app_assoc.
  - constructor; [reflexivity | exact F].
Qed.

(** The body of the [try] block never completes normally. *)
Lemma session_never_returns parser net ip port g :
  fst (session parser net ip port g) <> Ok tt.
Proof.
  rewrite session_unfold.
  destruct (connect_error net); [discriminate|].
  destruct (sendall_error net); [discriminate|].
  assert (forall d rest g0,
             fst (after_reply parser (ending net) d rest g0) <> Ok tt) as Hk.
  { intros d rest g0. rewrite after_reply_unfold.
    destruct (decode_utf8 d); [discriminate|].
    apply receive_loop_never_returns. }
  unfold recv, bind, log. destruct (reads 1024 net) as [|d rest].
  - destruct (ending net); [apply Hk | discriminate | discriminate].
  - apply Hk.
Qed.

Lemma enable_click_unfold parser net g port :
  py_int (eb_port g) = inr port ->
  enable_click parser net g
  = with_socket
      (try_except (session parser net (eb_ip g) port) display_exception)
      (pressed g).
Proof.
  intros H. unfold enable_click, bind, button_configure, entry_get_ip,
              entry_get_port.
  cbn [record eb_port eb_ip]. rewrite H. reflexivity.
Qed.

Lemma enable_click_bad_port parser net g e :
  py_int (eb_port g) = inl e ->
  enable_click parser net g = (Raise e, pressed g).
Proof.
  intros H. unfold enable_click, bind, button_configure, entry_get_ip,
              entry_get_port.
  cbn [record eb_port eb_ip]. rewrite H. reflexivity.
Qed.

Lemma enable_click_handles parser net g port e g1 :
  py_int (eb_port g) = inr port ->
  session parser net (eb_ip g) port (pressed g) = (Raise e, g1) ->
  enable_click parser net g
  = (Ok tt, record EvClose (shows tb_status (PyExn e) g1)).
Proof.
  intros H Hs. rewrite (enable_click_unfold _ _ _ _ H).
  unfold with_socket, try_except. rewrite Hs. reflexivity.
Qed.

Lemma enable_click_hangs parser net g port g1 :
  py_int (eb_port g) = inr port ->
  session parser net (eb_ip g) port (pressed g) = (Hang, g1) ->
  enable_click parser net g = (Hang, g1).
Proof.
  intros H Hs. rewrite (enable_click_unfold _ _ _ _ H).
  unfold with_socket, try_except. rewrite Hs. reflexivity.
Qed.

(** Up to the loop: the command is sent and the first reply is shown. *)
Lemma session_streaming parser net ip port g reply txt pending :
  connect_error net = None ->
  sendall_error net = None ->
  reads 1024 net = reply :: pending ->
  decode_utf8 reply = inr txt ->
  session parser net ip port g
  = receive_loop parser pending (ending net) (greeted ip port reply txt g).
Proof.
  intros Hc Hs Hr Hd. rewrite session_unfold, Hc, Hs, Hr.
  unfold recv, bind, log. now rewrite after_reply_unfold, Hd.
Qed.

Lemma enable_click_loop_raises parser net g port reply txt pending e g1 :
  py_int (eb_port g) = inr port ->
  connect_error net = None ->
  sendall_error net = None ->
  reads 1024 net = reply :: pending ->
  decode_utf8 reply = inr txt ->
  receive_loop parser pending (ending net)
    (greeted (eb_ip g) port reply txt (pressed g)) = (Raise e, g1) ->
  enable_click parser net g
  = (Ok tt, record EvClose (shows tb_status (PyExn e) g1)).
Proof.
  intros Hport Hc Hs Hr Hd Hloop.
  apply enable_click_handles with (port := port); [exact Hport|].
  now rewrite (session_streaming _ _ _ _ _ _ _ _ Hc Hs Hr Hd).
Qed.

Lemma enable_click_loop_hangs parser net g port reply txt pending g1 :
  py_int (eb_port g) = inr port ->
  connect_error net = None ->
  sendall_error net = None ->
  reads 1024 net = reply :: pending ->
  decode_utf8 reply = inr txt ->
  receive_loop parser pending (ending net)
    (greeted (eb_ip g) port reply txt (pressed g)) = (Hang, g1) ->
  enable_click parser net g = (Hang, g1).
Proof.
  intros Hport Hc Hs Hr Hd Hloop.
  apply enable_click_hangs with (port := port); [exact Hport|].
  now rewrite (session_streaming _ _ _ _ _ _ _ _ Hc Hs Hr Hd).
Qed.

Lemma frames_greeted parser ip port reply txt g :
  frames parser (history (greeted ip port reply txt g))
  = frames parser (history g).
Proof.
  unfold greeted. rewrite history_shows. cbn [record history].
  rewrite !frames_app. cbn. now rewrite !app_nil_r.
Qed.

Lemma frames_pressed parser g :
  frames parser (history (pressed g)) = frames parser (history g).
Proof.
  unfold pressed. cbn [record history]. rewrite frames_app. apply app_nil_r.
Qed.

(** ** No exception leaves [enable_click] *)

(** The port is read on line 102, before the [try] block is entered.
    A port entry that holds "abc", or a numeral of 4301 digits, makes
    [int] raise ValueError, and [enable_click] raises it to its caller:
    the button is disabled, no connection is attempted and the status
    box keeps its text. *)
Lemma C10_counterexample :
  enable_click RefParser.parser (short_network PeerSilent)
    (window_with_port "abc")
  = (Raise (ValueError "invalid literal for int() with base 10: 'abc'"),
     pressed (window_with_port "abc"))
  /\ history (pressed (window_with_port "abc"))
     = [EvButtonState "disabled"]
  /\ contents (pressed (window_with_port "abc")) tb_status
     = [PyStr "Real-time information not enabled"]
  /\ fst (enable_click RefParser.parser (short_network PeerSilent)
            (window_with_port
               (string_of_list_ascii (repeat "1"%char 4301))))
     = Raise (ValueError "Exceeds the limit (4300 digits) for integer string conversion: value has 4301 digits; use sys.set_int_max_str_digits() to increase the limit")
  /\ py_int (string_of_list_ascii (repeat "1"%char 4300))
     = inr ((10 ^ 4300 - 1) / 9)%Z.
Proof.
  split; [|evaluate].
  apply enable_click_bad_port. vm_compute; reflexivity.
Qed.

(** C10, as the code has it.  Once the port is read, whatever goes
    wrong inside the [try] block (connecting, sending, reading,
    decoding) is caught by the one handler: [enable_click] returns
    normally with the exception shown in the status box and the socket
    closed, or it is still waiting in [recv]; it never raises.  The
    block itself never completes, and no second connection is
    attempted. *)
Theorem C10_no_exception_escapes parser net g port :
  py_int (eb_port g) = inr port ->
  (forall e, fst (enable_click parser net g) <> Raise e)
  /\ (forall e g1,
         session parser net (eb_ip g) port (pressed g) = (Raise e, g1) ->
         enable_click parser net g
         = (Ok tt, record EvClose (shows tb_status (PyExn e) g1)))
  /\ (forall g1,
         session parser net (eb_ip g) port (pressed g) = (Hang, g1) ->
         enable_click parser net g = (Hang, g1))
  /\ fst (session parser net (eb_ip g) port (pressed g)) <> Ok tt
  /\ (forall e,
         connect_error net = Some e ->
         session parser net (eb_ip g) port (pressed g)
         = (Raise e, record (EvConnect (eb_ip g) port) (pressed g)))
  /\ (forall e,
         connect_error net = None -> sendall_error net = Some e ->
         session parser net (eb_ip g) port (pressed g)
         = (Raise e,
            record (EvSendall byte_message)
              (record (EvConnect (eb_ip g) port) (pressed g))))
  /\ (forall e,
         connect_error net = None -> sendall_error net = None ->
         reads 1024 net = [] -> ending net = ReadFails e ->
         session parser net (eb_ip g) port (pressed g)
         = (Raise e,
            record (EvSendall byte_message)
              (record (EvConnect (eb_ip g) port) (pressed g))))
  /\ (forall e d rest fin g0 g1,
         parse_xml parser d (record (EvData d) g0) = (Raise e, g1) ->
         receive_loop parser (d :: rest) fin g0 = (Raise e, g1))
  /\ (forall e g0, receive_loop parser [] (ReadFails e) g0 = (Raise e, g0))
  /\ (exists evs,
         history (snd (enable_click parser net g))
         = history g
           ++ EvButtonState "disabled" :: EvConnect (eb_ip g) port :: evs
         /\ Forall not_connect evs).
Proof.
  intros Hport.
  pose proof (session_never_returns parser net (eb_ip g) port (pressed g))
    as Hnever.
  repeat split.
  - intros e. rewrite (enable_click_unfold _ _ _ _ Hport).
    unfold with_socket, try_except, display_exception.
    destruct (session parser net (eb_ip g) port (pressed g))
      as [[[]|e0|] g1]; cbn; discriminate.
  - intros e g1. now apply enable_click_handles.
  - intros g1. now apply enable_click_hangs.
  - exact Hnever.
  - intros e Hc. now rewrite session_unfold, Hc.
  - intros e Hc Hs. now rewrite session_unfold, Hc, Hs.
  - intros e Hc Hs Hr He. now rewrite session_unfold, Hc, Hs, Hr, He.
  - intros e d rest fin g0 g1. apply receive_loop_stop.
  - destruct (session_connects_once parser net (eb_ip g) port (pressed g))
      as (evs & Hh & F).
    destruct (session parser net (eb_ip g) port (pressed g))
      as [[[]|e|] g1] eqn:Hs; cbn [snd] in Hh.
    + now contradiction Hnever.
    + rewrite (enable_click_handles _ _ _ _ _ _ Hport Hs).
      exists (evs ++ [EvDelete tb_status; EvInsert tb_status (PyExn e);
                      EvClose]).
      split.
      * cbn [snd record history]. rewrite history_shows, Hh. cbn.
        rewrite <- !app_assoc. reflexivity.
      * apply Forall_app. split; [exact F | now repeat constructor].
    + rewrite (enable_click_hangs _ _ _ _ _ Hport Hs).
      exists evs. split; [|exact F].
      cbn [snd]. rewrite Hh. cbn. now rewrite <- !app_assoc.
Qed.

Lemma C10_witness :
  py_int (eb_port initial_world) = inr 1234%Z
  /\ enable_click RefParser.parser (mkNetwork (Some refused) None [] PeerSilent)
       initial_world
     = (Ok tt,
        record EvClose
          (shows tb_status (PyExn refused)
             (record (EvConnect (eb_ip initial_world) 1234)
                (pressed initial_world)))).
Proof.
  assert (H : py_int (eb_port initial_world) = inr 1234%Z)
    by (vm_compute; reflexivity).
  split; [exact H|].
  destruct (C10_no_exception_escapes RefParser.parser
              (mkNetwork (Some refused) None [] PeerSilent)
              initial_world 1234 H)
    as (_ & Hcatch & _ & _ & Hconnect & _).
  apply Hcatch. apply Hconnect. reflexivity.
Defined.

(** ** After the end *)

(** [parse_xml] reads nothing from the socket. *)
Lemma parse_xml_chunks parser data g :
  chunks_received (history (snd (parse_xml parser data g)))
  = chunks_received (history g).
Proof.
  destruct (parse_xml_quiet parser data g) as (evs & -> & F).
  now rewrite chunks_received_app, (chunks_received_widget_events _ F),
    app_nil_r.
Qed.

Lemma chunks_received_greeted ip port reply txt g :
  chunks_received (history (greeted ip port reply txt (pressed g)))
  = chunks_received (history g) ++ [reply].
Proof.
  unfold greeted. rewrite history_shows. cbn [record history pressed].
  rewrite !chunks_received_app. cbn. now rewrite !app_nil_r.
Qed.

Lemma chunks_received_handled e g :
  chunks_received (history (record EvClose (shows tb_status (PyExn e) g)))
  = chunks_received (history g).
Proof.
  cbn [record history]. rewrite history_shows, !chunks_received_app. cbn.
  now rewrite !app_nil_r.
Qed.

(** The loop over chunks that all decode: it has read them, and waits
    for the next. *)
Lemma receive_loop_decodes_read parser good g :
  Forall (decodes parser) good ->
  exists g1,
    (forall rest fin,
        receive_loop parser (good ++ rest) fin g
        = receive_loop parser rest fin g1)
    /\ chunks_received (history g1) = chunks_received (history g) ++ good.
Proof.
  intros H. revert g. induction H as [|d good Hd _ IH]; intros g.
  - exists g. split; [reflexivity|]. now rewrite app_nil_r.
  - destruct (decodes_run parser d (record (EvData d) g) Hd) as (g0 & Hrun).
    destruct (IH g0) as (g1 & Hloop & Hread).
    exists g1. split.
    + intros rest fin. cbn [app].
      rewrite (receive_loop_step _ _ _ _ _ _ Hrun). apply Hloop.
    + rewrite Hread.
      assert (chunks_received (history g0)
              = chunks_received (history (record (EvData d) g))) as ->.
      { rewrite <- (parse_xml_chunks parser d (record (EvData d) g)).
        now rewrite Hrun. }
      cbn [record history]. rewrite chunks_received_app. cbn.
      now rewrite <- app_assoc.
Qed.

(** C7. [enable_click] ends in one way only: an exception reaches the
    handler, which shows it in the status box, the socket is closed and
    the routine returns.  Nothing happens after that.  Whichever way
    the session fails or is closed (the connection or the command
    fails, the first reply cannot be read or decoded, a chunk makes
    [parse_xml] raise, a read fails, the peer closes), the final window
    is the window at the moment of the exception with the exception
    shown and the socket closed: the chunks that follow the failure are
    never read, no telemetry box is written and no event is recorded
    after the close. *)
Theorem C7_nothing_after_the_end parser net (g : world) (port : Z) :
  py_int (eb_port g) = inr port ->
  (forall final,
      enable_click parser net g = (Ok tt, final) ->
      exists e g1,
        session parser net (eb_ip g) port (pressed g) = (Raise e, g1)
        /\ final = record EvClose (shows tb_status (PyExn e) g1)
        /\ history final
           = history g1
             ++ [EvDelete tb_status; EvInsert tb_status (PyExn e); EvClose]
        /\ chunks_received (history final) = chunks_received (history g1)
        /\ forall w, telemetry_box w -> contents final w = contents g1 w)
  /\ (forall e,
         connect_error net = Some e ->
         enable_click parser net g
         = (Ok tt,
            record EvClose
              (shows tb_status (PyExn e)
                 (record (EvConnect (eb_ip g) port) (pressed g)))))
  /\ (forall e,
         connect_error net = None -> sendall_error net = Some e ->
         enable_click parser net g
         = (Ok tt,
            record EvClose
              (shows tb_status (PyExn e)
                 (record (EvSendall byte_message)
                    (record (EvConnect (eb_ip g) port) (pressed g))))))
  /\ (forall e,
         connect_error net = None -> sendall_error net = None ->
         reads 1024 net = [] -> ending net = ReadFails e ->
         enable_click parser net g
         = (Ok tt,
            record EvClose
              (shows tb_status (PyExn e)
                 (record (EvSendall byte_message)
                    (record (EvConnect (eb_ip g) port) (pressed g))))))
  /\ (forall reply rest e,
         connect_error net = None -> sendall_error net = None ->
         reads 1024 net = reply :: rest ->
         decode_utf8 reply = inl e ->
         enable_click parser net g
         = (Ok tt,
            record EvClose
              (shows tb_status (PyExn e)
                 (emptied tb_status
                    (record (EvReply reply)
                       (record (EvSendall byte_message)
                          (record (EvConnect (eb_ip g) port)
                             (pressed g))))))))
  /\ (forall reply txt good,
         connect_error net = None -> sendall_error net = None ->
         decode_utf8 reply = inr txt ->
         Forall (decodes parser) good ->
         exists g1,
           receive_loop parser good PeerSilent
             (greeted (eb_ip g) port reply txt (pressed g)) = (Hang, g1)
           /\ chunks_received (history g1)
              = chunks_received (history g) ++ reply :: good
           /\ (forall bad rest e g2,
                  reads 1024 net = reply :: good ++ bad :: rest ->
                  parse_xml parser bad (record (EvData bad) g1)
                  = (Raise e, g2) ->
                  enable_click parser net g
                  = (Ok tt, record EvClose (shows tb_status (PyExn e) g2))
                  /\ chunks_received
                       (history (snd (enable_click parser net g)))
                     = chunks_received (history g) ++ reply :: good ++ [bad])
           /\ (forall e,
                  reads 1024 net = reply :: good ->
                  ending net = ReadFails e ->
                  enable_click parser net g
                  = (Ok tt, record EvClose (shows tb_status (PyExn e) g1)))
           /\ (reads 1024 net = reply :: good ->
               ending net = PeerCloses ->
               enable_click parser net g
               = (Ok tt,
                  record EvClose
                    (shows tb_status (PyExn (ParseError "no element found"))
                       (record (EvData []) g1))))).
Proof.
  intros Hport. split; [|split; [|split; [|split; [|split]]]].
  - intros final Hfinal.
    destruct (session parser net (eb_ip g) port (pressed g))
      as [[[]|e|] g1] eqn:Hs.
    + exfalso.
      apply (session_never_returns parser net (eb_ip g) port (pressed g)).
      now rewrite Hs.
    + rewrite (enable_click_handles _ _ _ _ _ _ Hport Hs) in Hfinal.
      injection Hfinal as <-. exists e, g1.
      split; [reflexivity|]. split; [reflexivity|]. split; [|split].
      * cbn [record history]. rewrite history_shows, <- app_assoc.
        reflexivity.
      * apply chunks_received_handled.
      * intros w Hw. rewrite contents_record, contents_shows.
        destruct (widget_eq_dec tb_status w) as [<-|_];
          [now contradiction Hw | reflexivity].
    + rewrite (enable_click_hangs _ _ _ _ _ Hport Hs) in Hfinal.
      discriminate.
  - intros e Hc. apply enable_click_handles with (port := port);
      [exact Hport|]. now rewrite session_unfold, Hc.
  - intros e Hc Hs. apply enable_click_handles with (port := port);
      [exact Hport|]. now rewrite session_unfold, Hc, Hs.
  - intros e Hc Hs Hr He. apply enable_click_handles with (port := port);
      [exact Hport|]. now rewrite session_unfold, Hc, Hs, Hr, He.
  - intros reply rest e Hc Hs Hr Hd.
    apply enable_click_handles with (port := port); [exact Hport|].
    rewrite session_unfold, Hc, Hs, Hr. unfold recv, bind, log.
    now rewrite after_reply_unfold, Hd.
  - intros reply txt good Hc Hs Hd Hgood.
    destruct (receive_loop_decodes_read parser good
                (greeted (eb_ip g) port reply txt (pressed g)) Hgood)
      as (g1 & Hloop & Hread).
    rewrite chunks_received_greeted, <- app_assoc in Hread.
    exists g1. split; [|split; [exact Hread|split; [|split]]].
    + rewrite <- (app_nil_r good) at 1. now rewrite Hloop.
    + intros bad rest e g2 Hr Hbad.
      assert (Hend : enable_click parser net g
                     = (Ok tt, record EvClose (shows tb_status (PyExn e) g2))).
      { apply (enable_click_loop_raises _ _ _ _ _ _ _ _ _ Hport Hc Hs Hr Hd).
        rewrite Hloop. now apply receive_loop_stop. }
      split; [exact Hend|].
      rewrite Hend. cbn [snd]. rewrite chunks_received_handled.
      assert (chunks_received (history g2)
              = chunks_received (history (record (EvData bad) g1))) as ->.
      { rewrite <- (parse_xml_chunks parser bad (record (EvData bad) g1)).
        now rewrite Hbad. }
      cbn [record history]. rewrite chunks_received_app, Hread. cbn.
      now rewrite <- app_assoc.
    + intros e Hr He.
      apply (enable_click_loop_raises _ _ _ _ _ _ _ _ _ Hport Hc Hs Hr Hd).
      specialize (Hloop [] (ending net)). rewrite app_nil_r in Hloop.
      rewrite Hloop, He. reflexivity.
    + intros Hr He.
      apply (enable_click_loop_raises _ _ _ _ _ _ _ _ _ Hport Hc Hs Hr Hd).
      specialize (Hloop [] (ending net)). rewrite app_nil_r in Hloop.
      rewrite Hloop, He. reflexivity.
Qed.

Lemma C7_witness :
  py_int (eb_port initial_world) = inr 1234%Z
  /\ enable_click RefParser.parser bad_then_good_network initial_world
     = (Ok tt,
        record EvClose
          (shows tb_status (PyExn not_a_float)
             (emptied tb_vo2
                (shows tb_time (PyStr "00:01:23")
                   (record (EvData bad_vo2_document)
                      (greeted (eb_ip initial_world) 1234 reply_document
                         (string_of_list_byte reply_document)
                         (pressed initial_world)))))))
  /\ chunks_received
       (history (snd (enable_click RefParser.parser bad_then_good_network
                        initial_world)))
     = chunks_received (history initial_world)
       ++ reply_document :: [] ++ [bad_vo2_document].
Proof.
  assert (H : py_int (eb_port initial_world) = inr 1234%Z)
    by (vm_compute; reflexivity).
  split; [exact H|].
  destruct (proj2 (proj2 (proj2 (proj2 (proj2
              (C7_nothing_after_the_end RefParser.parser
                 bad_then_good_network initial_world 1234%Z H)))))
              reply_document (string_of_list_byte reply_document) []
              eq_refl eq_refl)
    as (g1 & Hwait & _ & Hbad & _).
  - vm_compute; reflexivity.
  - constructor.
  - cbn [receive_loop] in Hwait. unfold hang in Hwait.
    injection Hwait as <-.
    apply (Hbad bad_vo2_document [next_document] not_a_float).
    + vm_compute; reflexivity.
    + apply parse_xml_bad_vo2 with (elem := bad_vo2_element);
        vm_compute; reflexivity.
Defined.

(** ** The command *)

(** C8. The handshake command is a constant: the bytes below, which are
    the UTF-8 encoding of the document of line 105.  Whenever the
    connection is made, these are the bytes handed to [sendall],
    whatever the window holds and whatever the network does. *)
Theorem C8_enable_command_is_constant :
  byte_message = enable_real_time_command
  /\ decode_utf8 enable_real_time_command
     = inr "<OmniaXB><System><EnableRealTimeInformation><Enabled>1</Enabled></EnableRealTimeInformation></System></OmniaXB>"
  /\ (forall parser net g port,
         py_int (eb_port g) = inr port ->
         connect_error net = None ->
         exists evs,
           history (snd (enable_click parser net g))
           = history g
             ++ [EvButtonState "disabled"; EvConnect (eb_ip g) port;
                 EvSendall enable_real_time_command] ++ evs).
Proof.
  assert (Hb : byte_message = enable_real_time_command)
    by (vm_compute; reflexivity).
  split; [exact Hb|]. split; [vm_compute; reflexivity|].
  intros parser net g port Hport Hc. rewrite <- Hb.
  assert (exists evs,
             history (snd (session parser net (eb_ip g) port (pressed g)))
             = history g
               ++ [EvButtonState "disabled"; EvConnect (eb_ip g) port;
                   EvSendall byte_message] ++ evs) as (evs & Hh).
  { rewrite session_unfold, Hc.
    destruct (sendall_error net).
    - exists []. cbn. now rewrite <- !app_assoc.
    - destruct (recv_appends (fun _ => True) EvReply (reads 1024 net)
                  (ending net) (after_reply parser (ending net))
                  (fun _ => I)
                  (fun d rest =>
                     appends_weaken _ _ _ (fun _ _ => I)
                       (after_reply_no_connect parser (ending net) d rest))
                  (record (EvSendall byte_message)
                     (record (EvConnect (eb_ip g) port) (pressed g))))
        as (evs & H & _).
      exists evs. rewrite H. cbn. now rewrite <- !app_assoc. }
  destruct (session parser net (eb_ip g) port (pressed g))
    as [[[]|e|] g1] eqn:Hs; cbn [snd] in Hh.
  - exfalso.
    apply (session_never_returns parser net (eb_ip g) port (pressed g)).
    now rewrite Hs.
  - rewrite (enable_click_handles _ _ _ _ _ _ Hport Hs).
    exists (evs ++ [EvDelete tb_status; EvInsert tb_status (PyExn e);
                    EvClose]).
    cbn [snd record history]. rewrite history_shows, Hh. cbn.
    now rewrite <- !app_assoc.
  - rewrite (enable_click_hangs _ _ _ _ _ Hport Hs).
    exists evs. exact Hh.
Qed.

Lemma C8_witness :
  py_int (eb_port initial_world) = inr 1234%Z
  /\ exists evs,
      history (snd (enable_click RefParser.parser
                      (mkNetwork None (Some broken_pipe) [] PeerSilent)
                      initial_world))
      = history initial_world
        ++ [EvButtonState "disabled"; EvConnect (eb_ip initial_world) 1234%Z;
            EvSendall enable_real_time_command] ++ evs.
Proof.
  assert (H : py_int (eb_port initial_world) = inr 1234%Z)
    by (vm_compute; reflexivity).
  split; [exact H|].
  exact (proj2 (proj2 C8_enable_command_is_constant) RefParser.parser
           (mkNetwork None (Some broken_pipe) [] PeerSilent)
           initial_world 1234%Z H eq_refl).
Defined.

(** ** Reads *)

Lemma chunks_of_aux_spec bufsize fuel (data : bytes) :
  0 < bufsize -> List.length data <= fuel ->
  List.concat (chunks_of_aux fuel bufsize data) = data
  /\ Forall (fun d => d <> [] /\ List.length d <= bufsize)
            (chunks_of_aux fuel bufsize data).
Proof.
  intros Hn. revert data. induction fuel as [|fuel IH]; intros data Hlen.
  - destruct data; [now split | cbn in Hlen; lia].
  - destruct data as [|b t]; [now split|].
    cbn [chunks_of_aux].
    destruct (IH (skipn bufsize (b :: t))) as [Hc Hf].
    { rewrite length_skipn. cbn [List.length] in *. lia. }
    split.
    + cbn [List.concat]. rewrite Hc. apply firstn_skipn.
    + constructor; [|exact Hf]. split.
      * destruct bufsize; [lia | discriminate].
      * apply firstn_le_length.
Qed.

(** Every read returns between one and [bufsize] bytes, and the reads
    put end to end are the bytes that arrived. *)
Lemma reads_spec bufsize net :
  0 < bufsize ->
  List.concat (reads bufsize net) = List.concat (arrivals net)
  /\ Forall (fun d => d <> [] /\ List.length d <= bufsize) (reads bufsize net).
Proof.
  intros Hn. unfold reads. induction (arrivals net) as [|a l [IHc IHf]].
  - now split.
  - destruct (chunks_of_aux_spec bufsize (List.length a) a Hn (le_n _))
      as [Hc Hf].
    cbn [flat_map List.concat]. split.
    + rewrite concat_app, IHc. unfold chunks_of. now rewrite Hc.
    + apply Forall_app. split; assumption.
Qed.

(** ** How the stream ends *)

(** A clean close by the peer is shown in the status box as the
    parser's complaint about the empty chunk, through the same handler
    as a failed read. *)
Lemma C6_counterexample :
  fst (short_run PeerCloses) = Ok tt
  /\ contents (snd (short_run PeerCloses)) tb_status
     = [PyExn (ParseError "no element found")]
  /\ history (snd (short_run PeerCloses))
     = history (snd (short_run PeerSilent))
       ++ [EvData []; EvDelete tb_status;
           EvInsert tb_status (PyExn (ParseError "no element found"));
           EvClose]
  /\ fst (short_run (ReadFails reset)) = Ok tt
  /\ contents (snd (short_run (ReadFails reset))) tb_status = [PyExn reset]
  /\ history (snd (short_run (ReadFails reset)))
     = history (snd (short_run PeerSilent))
       ++ [EvDelete tb_status; EvInsert tb_status (PyExn reset); EvClose].
Proof. evaluate. Qed.

(** C6, as the code has it.  With the handshake done and every chunk
    read so far decoded, a clean close by the peer and a failed read end
    [enable_click] in the same way: the handler runs, the exception is
    shown in the status box and the routine returns.  They differ only
    in the exception shown: for a close it is the parser's error on the
    empty chunk, for a failed read it is the error of the read. *)
Theorem C6_close_and_read_error_end_alike
    parser net g port reply txt (good : list bytes) :
  py_int (eb_port g) = inr port ->
  connect_error net = None ->
  sendall_error net = None ->
  reads 1024 net = reply :: good ->
  decode_utf8 reply = inr txt ->
  Forall (decodes parser) good ->
  exists g1,
    frames parser (history g1) = frames parser (history g) ++ good
    /\ (ending net = PeerCloses ->
        enable_click parser net g
        = (Ok tt,
           record EvClose
             (shows tb_status (PyExn (ParseError "no element found"))
                (record (EvData []) g1))))
    /\ (forall e,
           ending net = ReadFails e ->
           enable_click parser net g
           = (Ok tt, record EvClose (shows tb_status (PyExn e) g1)))
    /\ (ending net = PeerSilent -> enable_click parser net g = (Hang, g1)).
Proof.
  intros Hport Hc Hs Hr Hd Hgood.
  destruct (receive_loop_decodes parser good
              (greeted (eb_ip g) port reply txt (pressed g)) Hgood)
    as (g1 & Hloop & Hfr).
  specialize (Hloop [] (ending net)). rewrite app_nil_r in Hloop.
  exists g1. split.
  { now rewrite Hfr, frames_greeted, frames_pressed. }
  repeat split.
  - intros He.
    apply (enable_click_loop_raises _ _ _ _ _ _ _ _ _ Hport Hc Hs Hr Hd).
    rewrite Hloop, He. reflexivity.
  - intros e He.
    apply (enable_click_loop_raises _ _ _ _ _ _ _ _ _ Hport Hc Hs Hr Hd).
    rewrite Hloop, He. reflexivity.
  - intros He.
    apply (enable_click_loop_hangs _ _ _ _ _ _ _ _ Hport Hc Hs Hr Hd).
    rewrite Hloop, He. reflexivity.
Qed.

Lemma C6_witness :
  py_int (eb_port initial_world) = inr 1234%Z
  /\ reads 1024 (short_network PeerCloses)
     = reply_document :: [example_document]
  /\ decode_utf8 reply_document = inr (string_of_list_byte reply_document)
  /\ Forall (decodes RefParser.parser) [example_document]
  /\ exists g1,
      enable_click RefParser.parser (short_network PeerCloses) initial_world
      = (Ok tt,
         record EvClose
           (shows tb_status (PyExn (ParseError "no element found"))
              (record (EvData []) g1))).
Proof.
  assert (H1 : py_int (eb_port initial_world) = inr 1234%Z)
    by (vm_compute; reflexivity).
  assert (H2 : reads 1024 (short_network PeerCloses)
               = reply_document :: [example_document])
    by (vm_compute; reflexivity).
  assert (H3 : decode_utf8 reply_document
               = inr (string_of_list_byte reply_document))
    by (vm_compute; reflexivity).
  assert (H4 : Forall (decodes RefParser.parser) [example_document])
    by (repeat constructor; intros g; vm_compute; reflexivity).
  repeat (split; [assumption|]).
  destruct (C6_close_and_read_error_end_alike RefParser.parser
              (short_network PeerCloses) initial_world 1234%Z reply_document
              (string_of_list_byte reply_document) [example_document]
              H1 eq_refl eq_refl H2 H3 H4) as (g1 & _ & Hclose & _).
  exists g1. apply Hclose. reflexivity.
Defined.

(** ** No buffer and no ceiling *)

(** The peer sends start tags without end: the first read of 1024 bytes
    is rejected by the parser and the session is over; the exception
    shown is the parser's, and the second read never happens. *)
Lemma C5_counterexample :
  List.length flood = 3000
  /\ map (@List.length byte) (reads 1024 flood_network)
     = [110; 1024; 1024; 952; 1024; 1024; 952]
  /\ forallb RefParser.inside (reads 1024 flood_network) = true
  /\ fst (enable_click RefParser.parser flood_network initial_world) = Ok tt
  /\ contents (snd (enable_click RefParser.parser flood_network
                      initial_world)) tb_status
     = [PyExn (ParseError "no element found or unclosed token")]
  /\ data_read (history (snd (enable_click RefParser.parser flood_network
                                initial_world)))
     = [firstn 1024 flood]
  /\ String.eqb (exn_class (ParseError "no element found or unclosed token"))
                "FrameTooLarge" = false.
Proof. evaluate. Qed.

(** C5, as the code has it.  Nothing is accumulated between reads: each
    read returns between one and 1024 bytes, which are parsed on their
    own.  A chunk that is not one document makes the parser raise at
    once; the loop ends there, whatever follows, and [enable_click]
    returns with that exception shown.  There is no ceiling and no
    other failure for too much data. *)
Theorem C5_reads_are_bounded_and_not_kept :
  (forall net,
      Forall (fun d => d <> [] /\ List.length d <= 1024) (reads 1024 net)
      /\ List.concat (reads 1024 net) = List.concat (arrivals net))
  /\ (forall parser d rest fin g e,
         ET_fromstring parser d = inl e ->
         receive_loop parser (d :: rest) fin g = (Raise e, record (EvData d) g))
  /\ (forall parser net g port reply txt d rest e,
         py_int (eb_port g) = inr port ->
         connect_error net = None ->
         sendall_error net = None ->
         reads 1024 net = reply :: d :: rest ->
         decode_utf8 reply = inr txt ->
         ET_fromstring parser d = inl e ->
         enable_click parser net g
         = (Ok tt,
            record EvClose
              (shows tb_status (PyExn e)
                 (record (EvData d)
                    (greeted (eb_ip g) port reply txt (pressed g)))))).
Proof.
  split; [|split].
  - intros net. destruct (reads_spec 1024 net) as [Hc Hf]; [lia|]. now split.
  - intros parser d rest fin g e He. apply receive_loop_stop.
    now apply parse_xml_rejected.
  - intros parser net g port reply txt d rest e Hport Hc Hs Hr Hd He.
    apply (enable_click_loop_raises _ _ _ _ _ _ _ _ _ Hport Hc Hs Hr Hd).
    apply receive_loop_stop. now apply parse_xml_rejected.
Qed.

Lemma C5_witness :
  py_int (eb_port initial_world) = inr 1234%Z
  /\ reads 1024 flood_network
     = reply_document :: firstn 1024 flood :: skipn 1 (skipn 1 (reads 1024 flood_network))
  /\ decode_utf8 reply_document = inr (string_of_list_byte reply_document)
  /\ ET_fromstring RefParser.parser (firstn 1024 flood)
     = inl (ParseError "no element found or unclosed token")
  /\ enable_click RefParser.parser flood_network initial_world
     = (Ok tt,
        record EvClose
          (shows tb_status
             (PyExn (ParseError "no element found or unclosed token"))
             (record (EvData (firstn 1024 flood))
                (greeted (eb_ip initial_world) 1234 reply_document
                   (string_of_list_byte reply_document)
                   (pressed initial_world))))).
Proof.
  assert (H1 : py_int (eb_port initial_world) = inr 1234%Z)
    by (vm_compute; reflexivity).
  assert (H2 : reads 1024 flood_network
               = reply_document :: firstn 1024 flood
                 :: skipn 1 (skipn 1 (reads 1024 flood_network)))
    by (vm_compute; reflexivity).
  assert (H3 : decode_utf8 reply_document
               = inr (string_of_list_byte reply_document))
    by (vm_compute; reflexivity).
  assert (H4 : ET_fromstring RefParser.parser (firstn 1024 flood)
               = inl (ParseError "no element found or unclosed token"))
    by (vm_compute; reflexivity).
  repeat (split; [assumption|]).
  exact (proj2 (proj2 C5_reads_are_bounded_and_not_kept) RefParser.parser
           flood_network initial_world 1234%Z reply_document
           (string_of_list_byte reply_document) (firstn 1024 flood)
           (skipn 1 (skipn 1 (reads 1024 flood_network)))
           (ParseError "no element found or unclosed token")
           H1 eq_refl eq_refl H2 H3 H4).
Defined.

(** ** A number that cannot be read *)





(** * Further properties of the two routines *)

(** ** One box at a time *)

Lemma show_text_step {A} w o (k : M A) g :
  (text_delete w ;; text_insert w (str_or_none o) ;; k) g
  = match o with
    | Some s => k (shows w (PyStr s) g)
    | None => (Raise missing_text, emptied w g)
    end.
Proof. destruct o; reflexivity. Qed.

Lemma show_text_last w o g :
  (text_delete w ;; text_insert w (str_or_none o)) g
  = match o with
    | Some s => (Ok tt, shows w (PyStr s) g)
    | None => (Raise missing_text, emptied w g)
    end.
Proof. destruct o; reflexivity. Qed.

(** ** Worlds that differ by redrawing *)

Section Redrawn.

Variable allowed : widget -> Prop.
Variable logged : event -> Prop.

Lemma redrawn_trans g1 g2 g3 :
  redrawn allowed logged g1 g2 -> redrawn allowed logged g2 g3 ->
  redrawn allowed logged g1 g3.
Proof.
  intros H12 H23. induction H23; [assumption | | |]; constructor; auto.
Qed.

Lemma redrawn_controls g g' :
  redrawn allowed logged g g' ->
  button_state g' = button_state g
  /\ eb_ip g' = eb_ip g /\ eb_port g' = eb_port g.
Proof. induction 1; [now repeat split | | |]; exact IHredrawn. Qed.

Lemma redrawn_elsewhere g g' w :
  redrawn allowed logged g g' -> ~ allowed w ->
  contents g' w = contents g w.
Proof.
  intros H Hw. induction H as [g|g g' w' v Hw' _ IH|g g' w' Hw' _ IH|g g' ev _ _ IH].
  - reflexivity.
  - rewrite contents_shows.
    destruct (widget_eq_dec w' w); [subst; contradiction | exact IH].
  - rewrite contents_emptied.
    destruct (widget_eq_dec w' w); [subst; contradiction | exact IH].
  - exact IH.
Qed.

Lemma redrawn_one_piece g g' w :
  redrawn allowed logged g g' ->
  contents g' w = contents g w \/ List.length (contents g' w) <= 1.
Proof.
  induction 1 as [g|g g' w' v _ _ IH|g g' w' _ _ IH|g g' ev _ _ IH].
  - now left.
  - rewrite contents_shows.
    destruct (widget_eq_dec w' w); [right; cbn; lia | exact IH].
  - rewrite contents_emptied.
    destruct (widget_eq_dec w' w); [right; cbn; lia | exact IH].
  - exact IH.
Qed.

Lemma redrawn_history g g' :
  redrawn allowed logged g g' ->
  exists evs,
    history g' = history g ++ evs
    /\ Forall (fun ev =>
                 logged ev
                 \/ match ev with
                    | EvDelete w | EvInsert w _ => allowed w
                    | _ => False
                    end) evs.
Proof.
  induction 1 as [g|g g' w v Hw _ (evs & IH & F)|g g' w Hw _ (evs & IH & F)
                 |g g' ev Hev _ (evs & IH & F)].
  - exists []. split; [now rewrite app_nil_r | constructor].
  - exists (evs ++ [EvDelete w; EvInsert w v]). split.
    + now rewrite history_shows, IH, app_assoc.
    + apply Forall_app. split; [exact F|].
      constructor; [now right|]. constructor; [now right|]. constructor.
  - exists (evs ++ [EvDelete w]). split.
    + now rewrite history_emptied, IH, app_assoc.
    + apply Forall_app. split; [exact F|].
      constructor; [now right|]. constructor.
  - exists (evs ++ [ev]). split.
    + cbn [record history]. now rewrite IH, app_assoc.
    + apply Forall_app. split; [exact F|].
      constructor; [now left|]. constructor.
Qed.

End Redrawn.

Lemma redrawn_weaken (A A' : widget -> Prop) (L L' : event -> Prop) g g' :
  (forall w, A w -> A' w) -> (forall ev, L ev -> L' ev) ->
  redrawn A L g g' -> redrawn A' L' g g'.
Proof. intros HA HL. induction 1; constructor; auto. Qed.

(** Whatever the chunk, [parse_xml] only redraws telemetry boxes. *)
Lemma parse_xml_redrawn parser data g :
  redrawn telemetry_box (fun _ => False) g (snd (parse_xml parser data g)).
Proof.
  unfold parse_xml.
  destruct (ET_fromstring parser data) as [e|root]; [constructor|].
  cbn [lift]. unfold bind at 1. cbn [ret].
  destruct (find_descendant "SetRealTimeInfo" root) as [elem|];
    [|constructor].
  rewrite show_text_step.
  destruct (findtext elem "TimeStamp");
    [|repeat (constructor; try discriminate)].
  rewrite show_float_step.
  destruct (py_float (findtext elem "VO2"));
    [repeat (constructor; try discriminate)|].
  rewrite show_float_step.
  destruct (py_float (findtext elem "VCO2"));
    [repeat (constructor; try discriminate)|].
  rewrite show_text_step.
  destruct (findtext elem "PHASE");
    [|repeat (constructor; try discriminate)].
  rewrite show_float_step.
  destruct (py_float (findtext elem "VE"));
    [repeat (constructor; try discriminate)|].
  rewrite show_text_last.
  destruct (findtext elem "HR"); repeat (constructor; try discriminate).
Qed.

(** X1. Whatever chunk it is given, and whether it returns or raises,
    [parse_xml] leaves the button, the two entries and the status box
    alone; each text box either keeps its contents or ends up holding at
    most one piece (boxes never pile up text); and the only things it
    does are deletes and inserts on the six telemetry boxes. *)
Theorem X1_parse_xml_touches_only_the_six_boxes parser (data : bytes) (g : world) :
  button_state (snd (parse_xml parser data g)) = button_state g
  /\ eb_ip (snd (parse_xml parser data g)) = eb_ip g
  /\ eb_port (snd (parse_xml parser data g)) = eb_port g
  /\ contents (snd (parse_xml parser data g)) tb_status = contents g tb_status
  /\ (forall w,
         contents (snd (parse_xml parser data g)) w = contents g w
         \/ List.length (contents (snd (parse_xml parser data g)) w) <= 1)
  /\ exists evs,
       history (snd (parse_xml parser data g)) = history g ++ evs
       /\ Forall telemetry_event evs.
Proof.
  pose proof (parse_xml_redrawn parser data g) as H.
  destruct (redrawn_controls _ _ _ _ H) as (Hb & Hi & Hp).
  repeat (split; [assumption|]).
  split; [|split].
  - apply (redrawn_elsewhere _ _ _ _ _ H). intros Hw. now apply Hw.
  - intros w. apply (redrawn_one_piece _ _ _ _ w H).
  - destruct (redrawn_history _ _ _ _ H) as (evs & Hh & F).
    exists evs. split; [exact Hh|].
    revert F. apply Forall_impl.
    intros ev [Hf|Hev]; [contradiction|].
    destruct ev; try contradiction; exact Hev.
Qed.

(** ** The whole routine redraws and records, nothing else *)

Lemma receive_loop_redrawn parser pending fin g :
  redrawn anything anything g (snd (receive_loop parser pending fin g)).
Proof.
  revert g. induction pending as [|d rest IH]; intros g.
  - destruct fin.
    + change (redrawn anything anything g (record (EvData []) g)).
      constructor; [exact I | constructor].
    + constructor.
    + constructor.
  - rewrite receive_loop_cons.
    assert (redrawn anything anything g
              (snd (parse_xml parser d (record (EvData d) g)))) as Hstep.
    { eapply redrawn_trans.
      - apply redrawn_record; [exact I | apply redrawn_refl].
      - eapply redrawn_weaken; [| |apply parse_xml_redrawn];
          intros; exact I. }
    destruct (parse_xml parser d (record (EvData d) g)) as [[[]|e|] g1];
      cbn [snd] in *; try exact Hstep.
    eapply redrawn_trans; [exact Hstep | apply IH].
Qed.

Lemma session_redrawn parser net ip port g :
  redrawn anything anything g (snd (session parser net ip port g)).
Proof.
  rewrite session_unfold.
  destruct (connect_error net); [repeat (constructor; try exact I)|].
  destruct (sendall_error net); [repeat (constructor; try exact I)|].
  assert (forall d rest g0,
             redrawn anything anything g g0 ->
             redrawn anything anything g
               (snd (after_reply parser (ending net) d rest g0))) as Hk.
  { intros d rest g0 H0. rewrite after_reply_unfold.
    destruct (decode_utf8 d); cbn [snd].
    - constructor; [exact I | exact H0].
    - eapply redrawn_trans; [|apply receive_loop_redrawn].
      constructor; [exact I | exact H0]. }
  unfold recv, bind, log. destruct (reads 1024 net) as [|d rest].
  - destruct (ending net); cbn [snd];
      try (apply Hk); repeat (constructor; try exact I).
  - apply Hk. repeat (constructor; try exact I).
Qed.

Lemma enable_click_redrawn parser net g :
  redrawn anything anything (pressed g) (snd (enable_click parser net g)).
Proof.
  destruct (py_int (eb_port g)) as [e|port] eqn:Hport.
  - rewrite (enable_click_bad_port _ _ _ _ Hport). constructor.
  - pose proof (session_redrawn parser net (eb_ip g) port (pressed g)) as Hs.
    destruct (session parser net (eb_ip g) port (pressed g))
      as [[[]|e|] g1] eqn:E; cbn [snd] in Hs.
    + exfalso.
      apply (session_never_returns parser net (eb_ip g) port (pressed g)).
      now rewrite E.
    + rewrite (enable_click_handles _ _ _ _ _ _ Hport E). cbn [snd].
      constructor; [exact I|]. constructor; [exact I | exact Hs].
    + now rewrite (enable_click_hangs _ _ _ _ _ Hport E).
Qed.

(** X2. However [enable_click] ends (it returns, it raises because the
    port is not a number, or it waits for ever), the button is disabled
    and stays so, the address and port entries are not modified, and
    every text box either keeps its contents or holds at most one
    piece. *)
Theorem X2_enable_click_disables_the_button_for_good parser net (g : world) :
  button_state (snd (enable_click parser net g)) = "disabled"
  /\ eb_ip (snd (enable_click parser net g)) = eb_ip g
  /\ eb_port (snd (enable_click parser net g)) = eb_port g
  /\ (forall w,
         contents (snd (enable_click parser net g)) w = contents g w
         \/ List.length (contents (snd (enable_click parser net g)) w) <= 1).
Proof.
  pose proof (enable_click_redrawn parser net g) as H.
  destruct (redrawn_controls _ _ _ _ H) as (Hb & Hi & Hp).
  repeat split; try assumption.
  intros w. apply (redrawn_one_piece _ _ _ _ w H).
Qed.

(** ** A child that is missing *)

(** X3. When a child of the decoded SetRealTimeInfo element is missing,
    [findtext] gives [None].  For TimeStamp, PHASE and HR the [None] is
    handed to [insert], which Tk rejects (TclError); for VO2, VCO2 and
    VE it is handed to [float], which raises TypeError.  In each case
    the box of the missing field has already been emptied, the boxes
    before it show the new values and the boxes after it are not
    touched. *)
Theorem X3_missing_child_raises
    parser (data : bytes) (elem : Element) (g : world) :
  decoded_element parser data = Some elem ->
  (findtext elem "TimeStamp" = None ->
   parse_xml parser data g = (Raise missing_text, emptied tb_time g))
  /\ (forall ts,
         findtext elem "TimeStamp" = Some ts ->
         findtext elem "VO2" = None ->
         parse_xml parser data g
         = (Raise missing_number,
            emptied tb_vo2 (shows tb_time (PyStr ts) g)))
  /\ (forall ts x1,
         findtext elem "TimeStamp" = Some ts ->
         py_float (findtext elem "VO2") = inr x1 ->
         findtext elem "VCO2" = None ->
         parse_xml parser data g
         = (Raise missing_number,
            emptied tb_vco2
              (shows tb_vo2 (PyFloat (py_round1 x1))
                 (shows tb_time (PyStr ts) g))))
  /\ (forall ts x1 x2,
         findtext elem "TimeStamp" = Some ts ->
         py_float (findtext elem "VO2") = inr x1 ->
         py_float (findtext elem "VCO2") = inr x2 ->
         findtext elem "PHASE" = None ->
         parse_xml parser data g
         = (Raise missing_text,
            emptied tb_phase
              (shows tb_vco2 (PyFloat (py_round1 x2))
                 (shows tb_vo2 (PyFloat (py_round1 x1))
                    (shows tb_time (PyStr ts) g)))))
  /\ (forall ts x1 x2 ph,
         findtext elem "TimeStamp" = Some ts ->
         py_float (findtext elem "VO2") = inr x1 ->
         py_float (findtext elem "VCO2") = inr x2 ->
         findtext elem "PHASE" = Some ph ->
         findtext elem "VE" = None ->
         parse_xml parser data g
         = (Raise missing_number,
            emptied tb_ve
              (shows tb_phase (PyStr ph)
                 (shows tb_vco2 (PyFloat (py_round1 x2))
                    (shows tb_vo2 (PyFloat (py_round1 x1))
                       (shows tb_time (PyStr ts) g))))))
  /\ (forall ts x1 x2 ph x3,
         findtext elem "TimeStamp" = Some ts ->
         py_float (findtext elem "VO2") = inr x1 ->
         py_float (findtext elem "VCO2") = inr x2 ->
         findtext elem "PHASE" = Some ph ->
         py_float (findtext elem "VE") = inr x3 ->
         findtext elem "HR" = None ->
         parse_xml parser data g
         = (Raise missing_text,
            emptied tb_hr
              (shows tb_ve (PyFloat (py_round1 x3))
                 (shows tb_phase (PyStr ph)
                    (shows tb_vco2 (PyFloat (py_round1 x2))
                       (shows tb_vo2 (PyFloat (py_round1 x1))
                          (shows tb_time (PyStr ts) g))))))).
Proof.
  intros Helem.
  destruct (decoded_element_root parser data elem Helem)
    as (root & Hroot & Hfind).
  assert (forall g0,
             parse_xml parser data g0
             = (text_delete tb_time ;;
                text_insert tb_time (str_or_none (findtext elem "TimeStamp")) ;;
                text_delete tb_vo2 ;;
                vo2_value <- lift (py_float (findtext elem "VO2")) ;;
                text_insert tb_vo2 (PyFloat (py_round1 vo2_value)) ;;
                text_delete tb_vco2 ;;
                vco2_value <- lift (py_float (findtext elem "VCO2")) ;;
                text_insert tb_vco2 (PyFloat (py_round1 vco2_value)) ;;
                text_delete tb_phase ;;
                text_insert tb_phase (str_or_none (findtext elem "PHASE")) ;;
                text_delete tb_ve ;;
                ve_value <- lift (py_float (findtext elem "VE")) ;;
                text_insert tb_ve (PyFloat (py_round1 ve_value)) ;;
                text_delete tb_hr ;;
                text_insert tb_hr (str_or_none (findtext elem "HR"))) g0)
    as Hbody.
  { intros g0. unfold parse_xml. rewrite Hroot. cbn [lift].
    unfold bind at 1. cbn [ret]. now rewrite Hfind. }
  rewrite Hbody. clear Hbody.
  split; [|split; [|split; [|split; [|split]]]].
  - intros H1. now rewrite show_text_step, H1.
  - intros ts H1 H2. rewrite show_text_step, H1, show_float_step, H2.
    reflexivity.
  - intros ts x1 H1 H2 H3.
    rewrite show_text_step, H1, show_float_step, H2, show_float_step, H3.
    reflexivity.
  - intros ts x1 x2 H1 H2 H3 H4.
    rewrite show_text_step, H1, show_float_step, H2, show_float_step, H3.
    now rewrite show_text_step, H4.
  - intros ts x1 x2 ph H1 H2 H3 H4 H5.
    rewrite show_text_step, H1, show_float_step, H2, show_float_step, H3.
    rewrite show_text_step, H4, show_float_step, H5. reflexivity.
  - intros ts x1 x2 ph x3 H1 H2 H3 H4 H5 H6.
    rewrite show_text_step, H1, show_float_step, H2, show_float_step, H3.
    rewrite show_text_step, H4, show_float_step, H5.
    now rewrite show_text_last, H6.
Qed.

Lemma X3_witness :
  decoded_element RefParser.parser no_timestamp_document
  = Some no_timestamp_element
  /\ findtext no_timestamp_element "TimeStamp" = None
  /\ parse_xml RefParser.parser no_timestamp_document initial_world
     = (Raise missing_text, emptied tb_time initial_world)
  /\ decoded_element RefParser.parser no_vo2_document = Some no_vo2_element
  /\ findtext no_vo2_element "TimeStamp" = Some "00:01:23"
  /\ findtext no_vo2_element "VO2" = None
  /\ parse_xml RefParser.parser no_vo2_document initial_world
     = (Raise missing_number,
        emptied tb_vo2 (shows tb_time (PyStr "00:01:23") initial_world)).
Proof.
  assert (H1 : decoded_element RefParser.parser no_timestamp_document
               = Some no_timestamp_element) by (vm_compute; reflexivity).
  assert (H2 : findtext no_timestamp_element "TimeStamp" = None)
    by reflexivity.
  assert (H3 : decoded_element RefParser.parser no_vo2_document
               = Some no_vo2_element) by (vm_compute; reflexivity).
  assert (H4 : findtext no_vo2_element "TimeStamp" = Some "00:01:23")
    by reflexivity.
  assert (H5 : findtext no_vo2_element "VO2" = None) by reflexivity.
  split; [exact H1|]. split; [exact H2|].
  split.
  { exact (proj1 (X3_missing_child_raises RefParser.parser
                    no_timestamp_document no_timestamp_element initial_world
                    H1) H2). }
  split; [exact H3|]. split; [exact H4|]. split; [exact H5|].
  exact (proj1 (proj2 (X3_missing_child_raises RefParser.parser
                         no_vo2_document no_vo2_element initial_world H3))
           "00:01:23" H4 H5).
Defined.

(** ** The port entry *)

Lemma py_int_raises_ValueError (text : string) (e : exn) :
  py_int text = inl e -> exn_class e = "ValueError".
Proof.
  unfold py_int. intros H.
  repeat match type of H with
         | context [match ?x with _ => _ end] => destruct x
         | context [if ?x then _ else _] => destruct x
         end;
    try discriminate; now inversion H.
Qed.

(** X4. The port is read before the [try] block is entered.  When the
    text of the port entry is not an integer literal, [int] raises
    ValueError and [enable_click] raises it to its caller: the button
    has been disabled, and nothing else has happened (no connection, no
    message in the status box). *)
Theorem X4_bad_port_escapes parser net (g : world) (e : exn) :
  py_int (eb_port g) = inl e ->
  enable_click parser net g = (Raise e, pressed g)
  /\ exn_class e = "ValueError"
  /\ history (pressed g) = history g ++ [EvButtonState "disabled"]
  /\ forall w, contents (pressed g) w = contents g w.
Proof.
  intros H. split; [now apply enable_click_bad_port|].
  split; [|split; [reflexivity | reflexivity]].
  now apply py_int_raises_ValueError with (text := eb_port g).
Qed.

Lemma X4_witness :
  py_int (eb_port (window_with_port "")) 
  = inl (ValueError "invalid literal for int() with base 10: ''")
  /\ enable_click RefParser.parser (short_network PeerSilent)
       (window_with_port "")
     = (Raise (ValueError "invalid literal for int() with base 10: ''"),
        pressed (window_with_port "")).
Proof.
  assert (H : py_int (eb_port (window_with_port ""))
              = inl (ValueError "invalid literal for int() with base 10: ''"))
    by (vm_compute; reflexivity).
  split; [exact H|].
  exact (proj1 (X4_bad_port_escapes RefParser.parser
                  (short_network PeerSilent) (window_with_port "") _ H)).
Defined.

(** ** The first reply *)

(** X5. When the first reply is not valid UTF-8, [decode] raises
    UnicodeDecodeError after the status box has been emptied; the
    handler shows the exception and the routine returns.  The receive
    loop is never entered: nothing is read after the reply. *)
Theorem X5_undecodable_reply_ends_the_session
    parser net (g : world) (port : Z) (reply : bytes) (rest : list bytes)
    (e : exn) :
  py_int (eb_port g) = inr port ->
  connect_error net = None ->
  sendall_error net = None ->
  reads 1024 net = reply :: rest ->
  decode_utf8 reply = inl e ->
  enable_click parser net g
  = (Ok tt,
     record EvClose
       (shows tb_status (PyExn e)
          (emptied tb_status
             (record (EvReply reply)
                (record (EvSendall byte_message)
                   (record (EvConnect (eb_ip g) port) (pressed g)))))))
  /\ exn_class e = "UnicodeDecodeError".
Proof.
  intros Hport Hc Hs Hr Hd. split.
  - apply enable_click_handles with (port := port); [exact Hport|].
    rewrite session_unfold, Hc, Hs, Hr. unfold recv, bind, log.
    now rewrite after_reply_unfold, Hd.
  - unfold decode_utf8 in Hd. destruct (utf8_valid reply); [discriminate|].
    now inversion Hd.
Qed.

Lemma X5_witness :
  py_int (eb_port initial_world) = inr 1234%Z
  /\ reads 1024 (mkNetwork None None [latin1_reply; example_document] PeerSilent)
     = latin1_reply :: [example_document]
  /\ decode_utf8 latin1_reply
     = inl (UnicodeDecodeError "'utf-8' codec can't decode bytes")
  /\ enable_click RefParser.parser
       (mkNetwork None None [latin1_reply; example_document] PeerSilent)
       initial_world
     = (Ok tt,
        record EvClose
          (shows tb_status
             (PyExn (UnicodeDecodeError "'utf-8' codec can't decode bytes"))
             (emptied tb_status
                (record (EvReply latin1_reply)
                   (record (EvSendall byte_message)
                      (record (EvConnect (eb_ip initial_world) 1234)
                         (pressed initial_world))))))).
Proof.
  assert (H1 : py_int (eb_port initial_world) = inr 1234%Z)
    by (vm_compute; reflexivity).
  assert (H2 : reads 1024
                 (mkNetwork None None [latin1_reply; example_document]
                    PeerSilent)
               = latin1_reply :: [example_document])
    by (vm_compute; reflexivity).
  assert (H3 : decode_utf8 latin1_reply
               = inl (UnicodeDecodeError "'utf-8' codec can't decode bytes"))
    by (vm_compute; reflexivity).
  repeat (split; [assumption|]).
  exact (proj1 (X5_undecodable_reply_ends_the_session RefParser.parser
                  (mkNetwork None None [latin1_reply; example_document]
                     PeerSilent)
                  initial_world 1234%Z latin1_reply [example_document] _
                  H1 eq_refl eq_refl H2 H3)).
Defined.

(** X6. When the peer closes the connection before sending anything,
    the first [recv] returns the empty chunk, which is shown in the
    status box as the empty text; the loop then reads the empty chunk
    again, the parser rejects it, and the routine returns with that
    error shown. *)
Theorem X6_close_before_any_reply parser net (g : world) (port : Z) :
  py_int (eb_port g) = inr port ->
  connect_error net = None ->
  sendall_error net = None ->
  reads 1024 net = [] ->
  ending net = PeerCloses ->
  enable_click parser net g
  = (Ok tt,
     record EvClose
       (shows tb_status (PyExn (ParseError "no element found"))
          (record (EvData [])
             (greeted (eb_ip g) port [] "" (pressed g))))).
Proof.
  intros Hport Hc Hs Hr He.
  apply enable_click_handles with (port := port); [exact Hport|].
  rewrite session_unfold, Hc, Hs, Hr, He. reflexivity.
Qed.

Lemma X6_witness :
  py_int (eb_port initial_world) = inr 1234%Z
  /\ reads 1024 (mkNetwork None None [] PeerCloses) = []
  /\ enable_click RefParser.parser (mkNetwork None None [] PeerCloses)
       initial_world
     = (Ok tt,
        record EvClose
          (shows tb_status (PyExn (ParseError "no element found"))
             (record (EvData [])
                (greeted (eb_ip initial_world) 1234 [] ""
                   (pressed initial_world))))).
Proof.
  assert (H1 : py_int (eb_port initial_world) = inr 1234%Z)
    by (vm_compute; reflexivity).
  split; [exact H1|]. split; [reflexivity|].
  exact (X6_close_before_any_reply RefParser.parser
           (mkNetwork None None [] PeerCloses) initial_world 1234%Z
           H1 eq_refl eq_refl eq_refl eq_refl).
Defined.

(** X7. The first chunk read is never decoded as telemetry: whatever
    it holds, and whatever the parser would make of it, it is shown in
    the status box as text and no other box is touched.  A telemetry
    message that arrives with the first reply is therefore not
    displayed. *)
Theorem X7_first_chunk_is_only_shown
    parser net (g : world) (port : Z) (reply : bytes) (txt : string) :
  py_int (eb_port g) = inr port ->
  connect_error net = None ->
  sendall_error net = None ->
  reads 1024 net = [reply] ->
  ending net = PeerSilent ->
  decode_utf8 reply = inr txt ->
  enable_click parser net g
  = (Hang, greeted (eb_ip g) port reply txt (pressed g))
  /\ contents (greeted (eb_ip g) port reply txt (pressed g)) tb_status
     = [PyStr txt]
  /\ forall w, w <> tb_status ->
       contents (greeted (eb_ip g) port reply txt (pressed g)) w
       = contents g w.
Proof.
  intros Hport Hc Hs Hr He Hd. split; [|split].
  - apply (enable_click_loop_hangs _ _ _ _ _ _ _ _ Hport Hc Hs Hr Hd).
    now rewrite He.
  - unfold greeted. now rewrite contents_shows.
  - intros w Hw. unfold greeted. rewrite contents_shows.
    destruct (widget_eq_dec tb_status w); [now subst | reflexivity].
Qed.

Lemma X7_witness :
  py_int (eb_port initial_world) = inr 1234%Z
  /\ reads 1024 (mkNetwork None None [example_document] PeerSilent)
     = [example_document]
  /\ decode_utf8 example_document
     = inr (string_of_list_byte example_document)
  /\ enable_click RefParser.parser
       (mkNetwork None None [example_document] PeerSilent) initial_world
     = (Hang,
        greeted (eb_ip initial_world) 1234 example_document
          (string_of_list_byte example_document) (pressed initial_world)).
Proof.
  assert (H1 : py_int (eb_port initial_world) = inr 1234%Z)
    by (vm_compute; reflexivity).
  assert (H2 : reads 1024 (mkNetwork None None [example_document] PeerSilent)
               = [example_document]) by (vm_compute; reflexivity).
  assert (H3 : decode_utf8 example_document
               = inr (string_of_list_byte example_document))
    by (vm_compute; reflexivity).
  repeat (split; [assumption|]).
  exact (proj1 (X7_first_chunk_is_only_shown RefParser.parser
                  (mkNetwork None None [example_document] PeerSilent)
                  initial_world 1234%Z example_document
                  (string_of_list_byte example_document)
                  H1 eq_refl eq_refl H2 eq_refl H3)).
Defined.

(** ** The latest frame *)

Lemma receive_loop_keeps_status parser pending fin g :
  contents (snd (receive_loop parser pending fin g)) tb_status
  = contents g tb_status.
Proof.
  revert g. induction pending as [|d rest IH]; intros g.
  - destruct fin; reflexivity.
  - rewrite receive_loop_cons.
    pose proof (parse_xml_redrawn parser d (record (EvData d) g)) as H.
    apply redrawn_elsewhere with (w := tb_status) in H;
      [|intros Hw; now apply Hw].
    destruct (parse_xml parser d (record (EvData d) g)) as [[[]|e|] g1];
      cbn [snd] in *; try exact H.
    now rewrite IH.
Qed.

(** X8. The boxes show the latest complete frame: after any number of
    chunks that decode, a chunk whose SetRealTimeInfo element has all
    six fields readable leaves its six values in the six boxes,
    whatever they held before, and the loop goes on; the status box is
    not changed by any of this. *)
Theorem X8_boxes_show_the_latest_frame
    parser (good : list bytes) (d : bytes) (elem : Element)
    (ts ph hr : string) (x1 x2 x3 : float) (g : world) :
  Forall (decodes parser) good ->
  decoded_element parser d = Some elem ->
  findtext elem "TimeStamp" = Some ts ->
  py_float (findtext elem "VO2") = inr x1 ->
  py_float (findtext elem "VCO2") = inr x2 ->
  findtext elem "PHASE" = Some ph ->
  py_float (findtext elem "VE") = inr x3 ->
  findtext elem "HR" = Some hr ->
  exists g1,
    (forall rest fin,
        receive_loop parser (good ++ d :: rest) fin g
        = receive_loop parser rest fin g1)
    /\ contents g1 tb_time = [PyStr ts]
    /\ contents g1 tb_vo2 = [PyFloat (py_round1 x1)]
    /\ contents g1 tb_vco2 = [PyFloat (py_round1 x2)]
    /\ contents g1 tb_phase = [PyStr ph]
    /\ contents g1 tb_ve = [PyFloat (py_round1 x3)]
    /\ contents g1 tb_hr = [PyStr hr]
    /\ contents g1 tb_status = contents g tb_status.
Proof.
  intros Hgood Helem H1 H2 H3 H4 H5 H6.
  destruct (receive_loop_decodes parser good g Hgood) as (g0 & Hloop & _).
  assert (contents g0 tb_status = contents g tb_status) as Hstatus.
  { pose proof (receive_loop_keeps_status parser good PeerSilent g) as H.
    rewrite <- (app_nil_r good) in H at 1. now rewrite Hloop in H. }
  eexists. split; [|split; [|split; [|split; [|split; [|split; [|split]]]]]].
  - intros rest fin. rewrite Hloop. apply receive_loop_step.
    eapply parse_xml_complete; eassumption.
  - now rewrite !contents_shows.
  - now rewrite !contents_shows.
  - now rewrite !contents_shows.
  - now rewrite !contents_shows.
  - now rewrite !contents_shows.
  - now rewrite !contents_shows.
  - rewrite !contents_shows, contents_record. exact Hstatus.
Qed.

Lemma X8_witness :
  Forall (decodes RefParser.parser) [example_document; other_document]
  /\ decoded_element RefParser.parser next_document = Some next_element
  /\ exists g1,
       (forall rest fin,
           receive_loop RefParser.parser
             ([example_document; other_document] ++ next_document :: rest)
             fin initial_world
           = receive_loop RefParser.parser rest fin g1)
       /\ contents g1 tb_time = [PyStr "00:01:24"]
       /\ contents g1 tb_vo2 = [PyFloat (py_round1 (literal "2350.04"))]
       /\ contents g1 tb_vco2 = [PyFloat (py_round1 (literal "1990.96"))]
       /\ contents g1 tb_phase = [PyStr "EX"]
       /\ contents g1 tb_ve = [PyFloat (py_round1 (literal "46.25"))]
       /\ contents g1 tb_hr = [PyStr "143"]
       /\ contents g1 tb_status = contents initial_world tb_status.
Proof.
  assert (H0 : Forall (decodes RefParser.parser)
                 [example_document; other_document])
    by (repeat constructor; intros g; vm_compute; reflexivity).
  assert (H1 : decoded_element RefParser.parser next_document
               = Some next_element) by (vm_compute; reflexivity).
  split; [exact H0|]. split; [exact H1|].
  apply (X8_boxes_show_the_latest_frame RefParser.parser
           [example_document; other_document] next_document next_element
           "00:01:24" "EX" "143" (literal "2350.04") (literal "1990.96")
           (literal "46.25") initial_world H0 H1);
    vm_compute; reflexivity.
Defined.

(** ** What is read, and in which order *)

Lemma closing_nil k : closing k [].
Proof. split; [constructor | apply Nat.le_0_l]. Qed.

Lemma closing_cons k tail : closing k tail -> closing (S k) ([] :: tail).
Proof.
  intros [F L]. split; [now constructor | cbn; now apply le_n_S].
Qed.

(** The loop reads its chunks in order, none twice and none skipped;
    only the empty chunk of a closed connection can follow them. *)
Lemma receive_loop_chunks parser pending fin g :
  exists evs n tail,
    history (snd (receive_loop parser pending fin g)) = history g ++ evs
    /\ chunks_received evs = firstn n pending ++ tail
    /\ closing 1 tail.
Proof.
  revert g. induction pending as [|d rest IH]; intros g.
  - destruct fin.
    + exists [EvData []], 0, [[]]. repeat split.
      * now repeat constructor.
      * apply le_n.
    + exists [], 0, []. repeat split;
        [now rewrite app_nil_r | constructor | apply Nat.le_0_l].
    + exists [], 0, []. repeat split;
        [now rewrite app_nil_r | constructor | apply Nat.le_0_l].
  - rewrite receive_loop_cons.
    destruct (parse_xml_quiet parser d (record (EvData d) g))
      as (evs1 & H1 & F1).
    pose proof (chunks_received_widget_events _ F1) as Hnone.
    cbn [record history] in H1.
    destruct (parse_xml parser d (record (EvData d) g)) as [[[]|e|] g1];
      cbn [snd] in *.
    + destruct (IH g1) as (evs2 & n & tail & H2 & Hc & Ht).
      exists (EvData d :: evs1 ++ evs2), (S n), tail.
      split; [|split; [|exact Ht]].
      * rewrite H2, H1, <- !app_assoc. reflexivity.
      * change (EvData d :: evs1 ++ evs2) with ([EvData d] ++ evs1 ++ evs2).
        rewrite !chunks_received_app, Hnone, Hc. reflexivity.
    + exists (EvData d :: evs1), 1, [].
      split; [|split; [|apply closing_nil]].
      * rewrite H1, <- !app_assoc. reflexivity.
      * change (EvData d :: evs1) with ([EvData d] ++ evs1).
        rewrite chunks_received_app, Hnone. reflexivity.
    + exists (EvData d :: evs1), 1, [].
      split; [|split; [|apply closing_nil]].
      * rewrite H1, <- !app_assoc. reflexivity.
      * change (EvData d :: evs1) with ([EvData d] ++ evs1).
        rewrite chunks_received_app, Hnone. reflexivity.
Qed.

Lemma after_reply_chunks parser fin d rest g :
  exists evs n tail,
    history (snd (after_reply parser fin d rest g)) = history g ++ evs
    /\ chunks_received evs = firstn n rest ++ tail
    /\ closing 1 tail.
Proof.
  rewrite after_reply_unfold. destruct (decode_utf8 d) as [e|txt]; cbn [snd].
  - exists [EvDelete tb_status], 0, [].
    split; [reflexivity | split; [reflexivity | apply closing_nil]].
  - destruct (receive_loop_chunks parser rest fin
                (shows tb_status (PyStr txt) g))
      as (evs & n & tail & H & Hc & Ht).
    exists ([EvDelete tb_status; EvInsert tb_status (PyStr txt)] ++ evs),
      n, tail.
    split; [|split; [exact Hc|exact Ht]].
    now rewrite H, history_shows, <- app_assoc.
Qed.

Lemma session_chunks parser net ip port g :
  exists evs n tail,
    history (snd (session parser net ip port g)) = history g ++ evs
    /\ chunks_received evs = firstn n (reads 1024 net) ++ tail
    /\ closing 2 tail.
Proof.
  rewrite session_unfold.
  destruct (connect_error net).
  { exists [EvConnect ip port], 0, [].
    split; [reflexivity | split; [reflexivity | apply closing_nil]]. }
  assert (forall h : list event,
             (h ++ [EvConnect ip port]) ++ [EvSendall byte_message]
             = h ++ [EvConnect ip port; EvSendall byte_message]) as Hh
    by (intros h; now rewrite <- app_assoc).
  destruct (sendall_error net).
  { exists [EvConnect ip port; EvSendall byte_message], 0, [].
    split; [apply Hh | split; [reflexivity | apply closing_nil]]. }
  unfold recv, bind, log. destruct (reads 1024 net) as [|d rest].
  - destruct (ending net).
    + destruct (after_reply_chunks parser PeerCloses [] []
                  (record (EvReply [])
                     (record (EvSendall byte_message)
                        (record (EvConnect ip port) g))))
        as (evs & n & tail & H & Hc & Ht).
      exists ([EvConnect ip port; EvSendall byte_message; EvReply []] ++ evs),
        0, ([] :: tail).
      split; [|split; [|now apply closing_cons]].
      * rewrite H. cbn [record history]. now rewrite <- !app_assoc.
      * rewrite chunks_received_app, Hc. now destruct n.
    + exists [EvConnect ip port; EvSendall byte_message], 0, [].
      split; [apply Hh | split; [reflexivity | apply closing_nil]].
    + exists [EvConnect ip port; EvSendall byte_message], 0, [].
      split; [apply Hh | split; [reflexivity | apply closing_nil]].
  - destruct (after_reply_chunks parser (ending net) d rest
                (record (EvReply d)
                   (record (EvSendall byte_message)
                      (record (EvConnect ip port) g))))
      as (evs & n & tail & H & Hc & [Ht Hl]).
    exists ([EvConnect ip port; EvSendall byte_message; EvReply d] ++ evs),
      (S n), tail.
    split; [|split; [|split; [exact Ht | now apply Nat.le_le_succ_r]]].
    + rewrite H. cbn [record history]. now rewrite <- !app_assoc.
    + rewrite chunks_received_app, Hc. reflexivity.
Qed.

(** X9. The chunks that [enable_click] reads are the successive
    results of [recv(1024)], taken in order from the first: none is
    skipped, repeated or reordered, and each holds at most 1024 bytes.
    The only other thing it can read is the empty chunk of a closed
    connection (once after a reply, twice when no reply came). *)
Theorem X9_chunks_are_read_in_order parser net (g : world) :
  exists evs n tail,
    history (snd (enable_click parser net g)) = history g ++ evs
    /\ chunks_received evs = firstn n (reads 1024 net) ++ tail
    /\ Forall (fun d => d = []) tail
    /\ List.length tail <= 2
    /\ Forall (fun d => List.length d <= 1024) (chunks_received evs).
Proof.
  assert (exists evs n tail,
             history (snd (enable_click parser net g)) = history g ++ evs
             /\ chunks_received evs = firstn n (reads 1024 net) ++ tail
             /\ closing 2 tail) as (evs & n & tail & H & Hc & Ht & Hl).
  { destruct (py_int (eb_port g)) as [e|port] eqn:Hport.
    - rewrite (enable_click_bad_port _ _ _ _ Hport).
      exists [EvButtonState "disabled"], 0, [].
      split; [reflexivity | split; [reflexivity | apply closing_nil]].
    - destruct (session_chunks parser net (eb_ip g) port (pressed g))
        as (evs & n & tail & H & Hc & Ht).
      destruct (session parser net (eb_ip g) port (pressed g))
        as [[[]|e|] g1] eqn:E; cbn [snd] in H.
      + exfalso.
        apply (session_never_returns parser net (eb_ip g) port (pressed g)).
        now rewrite E.
      + rewrite (enable_click_handles _ _ _ _ _ _ Hport E). cbn [snd].
        exists ([EvButtonState "disabled"] ++ evs
                ++ [EvDelete tb_status; EvInsert tb_status (PyExn e); EvClose]),
          n, tail.
        split; [|split; [|exact Ht]].
        * cbn [record history]. rewrite history_shows, H.
          cbn [pressed record history]. now rewrite <- !app_assoc.
        * rewrite !chunks_received_app, Hc. cbn. now rewrite app_nil_r.
      + rewrite (enable_click_hangs _ _ _ _ _ Hport E). cbn [snd].
        exists ([EvButtonState "disabled"] ++ evs), n, tail.
        split; [|split; [|exact Ht]].
        * rewrite H. cbn [pressed record history]. now rewrite <- !app_assoc.
        * rewrite chunks_received_app, Hc. reflexivity. }
  exists evs, n, tail. repeat split; try assumption.
  rewrite Hc. apply Forall_app. split.
  - destruct (reads_spec 1024 net) as [_ Hf]; [apply Nat.lt_0_succ|].
    rewrite <- (firstn_skipn n (reads 1024 net)) in Hf.
    apply Forall_app in Hf. destruct Hf as [Hf _].
    revert Hf. apply Forall_impl. now intros d [_ Hd].
  - revert Ht. apply Forall_impl. intros d ->. apply Nat.le_0_l.
Qed.

(** ** The same chunk again *)

Lemma painted_acc w ops acc :
  painted w ops acc
  = match painted w ops None with
    | Some c => Some c
    | None => acc
    end.
Proof.
  revert acc. induction ops as [|[w' o] ops IH]; intros acc; [reflexivity|].
  cbn [painted]. destruct (widget_eq_dec w' w); [|apply IH].
  rewrite IH. now destruct (painted w ops None).
Qed.

Lemma contents_redraw_all ops g w :
  contents (redraw_all ops g) w
  = match painted w ops None with
    | Some c => c
    | None => contents g w
    end.
Proof.
  revert g. induction ops as [|[w' o] ops IH]; intros g; [reflexivity|].
  cbn [redraw_all painted]. rewrite IH.
  rewrite (painted_acc w ops
             (if widget_eq_dec w' w
              then Some match o with Some v => [v] | None => [] end
              else None)).
  destruct (painted w ops None); [reflexivity|].
  destruct o as [v|]; cbn [redraw];
    rewrite ?contents_shows, ?contents_emptied;
    now destruct (widget_eq_dec w' w).
Qed.

(** What [parse_xml] does is a fixed list of redrawings, decided by the
    chunk alone. *)
Lemma parse_xml_plan parser data :
  exists r ops, forall g, parse_xml parser data g = (r, redraw_all ops g).
Proof.
  unfold parse_xml.
  destruct (ET_fromstring parser data) as [e|root].
  { now exists (Raise e), []. }
  cbn [lift]. unfold bind at 1. cbn [ret].
  destruct (find_descendant "SetRealTimeInfo" root) as [elem|].
  2:{ now exists (Ok tt), []. }
  destruct (findtext elem "TimeStamp") as [ts|] eqn:E1.
  2:{ exists (Raise missing_text), [(tb_time, None)]. intros g.
      now rewrite show_text_step. }
  destruct (py_float (findtext elem "VO2")) as [e2|x1] eqn:E2.
  { exists (Raise e2), [(tb_time, Some (PyStr ts)); (tb_vo2, None)].
    intros g. now rewrite show_text_step, show_float_step. }
  destruct (py_float (findtext elem "VCO2")) as [e3|x2] eqn:E3.
  { exists (Raise e3),
      [(tb_time, Some (PyStr ts)); (tb_vo2, Some (PyFloat (py_round1 x1)));
       (tb_vco2, None)].
    intros g.
    now rewrite show_text_step, show_float_step, show_float_step. }
  destruct (findtext elem "PHASE") as [ph|] eqn:E4.
  2:{ exists (Raise missing_text),
        [(tb_time, Some (PyStr ts)); (tb_vo2, Some (PyFloat (py_round1 x1)));
         (tb_vco2, Some (PyFloat (py_round1 x2))); (tb_phase, None)].
      intros g.
      rewrite show_text_step, show_float_step, show_float_step.
      now rewrite show_text_step. }
  destruct (py_float (findtext elem "VE")) as [e5|x3] eqn:E5.
  { exists (Raise e5),
      [(tb_time, Some (PyStr ts)); (tb_vo2, Some (PyFloat (py_round1 x1)));
       (tb_vco2, Some (PyFloat (py_round1 x2))); (tb_phase, Some (PyStr ph));
       (tb_ve, None)].
    intros g.
    rewrite show_text_step, show_float_step, show_float_step.
    now rewrite show_text_step, show_float_step. }
  destruct (findtext elem "HR") as [hr|] eqn:E6.
  - exists (Ok tt),
      [(tb_time, Some (PyStr ts)); (tb_vo2, Some (PyFloat (py_round1 x1)));
       (tb_vco2, Some (PyFloat (py_round1 x2))); (tb_phase, Some (PyStr ph));
       (tb_ve, Some (PyFloat (py_round1 x3))); (tb_hr, Some (PyStr hr))].
    intros g.
    rewrite show_text_step, show_float_step, show_float_step.
    rewrite show_text_step, show_float_step. now rewrite show_text_last.
  - exists (Raise missing_text),
      [(tb_time, Some (PyStr ts)); (tb_vo2, Some (PyFloat (py_round1 x1)));
       (tb_vco2, Some (PyFloat (py_round1 x2))); (tb_phase, Some (PyStr ph));
       (tb_ve, Some (PyFloat (py_round1 x3))); (tb_hr, None)].
    intros g.
    rewrite show_text_step, show_float_step, show_float_step.
    rewrite show_text_step, show_float_step. now rewrite show_text_last.
Qed.

(** X13. Whether [parse_xml] returns or raises on a chunk, and which
    exception it raises, does not depend on what the window shows; and
    decoding the same chunk a second time changes nothing that is
    displayed: every box holds after the second time what it held after
    the first. *)
Theorem X13_same_chunk_twice_shows_the_same parser (data : bytes) (g g0 : world) :
  fst (parse_xml parser data g0) = fst (parse_xml parser data g)
  /\ forall w,
       contents (snd (parse_xml parser data (snd (parse_xml parser data g)))) w
       = contents (snd (parse_xml parser data g)) w.
Proof.
  destruct (parse_xml_plan parser data) as (r & ops & H).
  split.
  - now rewrite !H.
  - intros w. rewrite !H. cbn [snd]. rewrite !contents_redraw_all.
    now destruct (painted w ops None).
Qed.

(** ** Numbers as the device writes them *)

Lemma digit_not_space c : is_digit c = true -> is_space c = false.
Proof.
  destruct c as [[] [] [] [] [] [] [] []]; try discriminate; reflexivity.
Qed.

Lemma digit_not_underscore c : is_digit c = true -> Ascii.eqb "_" c = false.
Proof.
  destruct c as [[] [] [] [] [] [] [] []]; try discriminate; reflexivity.
Qed.

Lemma read_sign_digit c l :
  is_digit c = true -> read_sign (c :: l) = (false, c :: l).
Proof.
  destruct c as [[] [] [] [] [] [] [] []]; try discriminate; reflexivity.
Qed.

Lemma drop_spaces_none l :
  (forall c, In c l -> is_space c = false) -> drop_spaces l = l.
Proof.
  destruct l as [|c l]; [reflexivity|]. intros H. cbn [drop_spaces].
  now rewrite (H c (or_introl eq_refl)).
Qed.

Lemma strip_none l :
  (forall c, In c l -> is_space c = false) -> strip l = l.
Proof.
  intros H. unfold strip. rewrite (drop_spaces_none l H).
  rewrite drop_spaces_none; [apply rev_involutive|].
  intros c Hc. apply H. now apply in_rev.
Qed.

Lemma span_digits_all ds :
  Forall (fun c => is_digit c = true) ds -> span_digits ds = (ds, []).
Proof.
  induction 1 as [|c ds Hc _ IH]; [reflexivity|].
  cbn [span_digits]. now rewrite Hc, IH.
Qed.

Lemma span_digits_stop ds c l :
  Forall (fun c => is_digit c = true) ds -> is_digit c = false ->
  span_digits (ds ++ c :: l) = (ds, c :: l).
Proof.
  intros H Hc. induction H as [|d ds Hd _ IH].
  - cbn. now rewrite Hc.
  - cbn [app span_digits]. now rewrite Hd, IH.
Qed.

Lemma ascii_of_code_code c : ascii_of_code (code c) = c.
Proof. unfold ascii_of_code, code. rewrite N2Z.id. apply ascii_N_embedding. Qed.

Lemma digit_is_ascii c : is_digit c = true -> (code c <? 127)%Z = true.
Proof.
  destruct c as [[] [] [] [] [] [] [] []]; try discriminate; reflexivity.
Qed.

(** ASCII text is read as it stands. *)
Lemma code_points_ascii l :
  Forall (fun c => (code c <? 127)%Z = true) l ->
  code_points l = Some (map code l).
Proof.
  induction 1 as [|c l Hc _ IH]; [reflexivity|].
  cbn [code_points map]. rewrite IH.
  assert ((code c <=? 127)%Z = true) as ->; [|reflexivity].
  apply Z.leb_le. apply Z.ltb_lt in Hc. lia.
Qed.

Lemma ascii_of_points_ascii l :
  Forall (fun c => (code c <? 127)%Z = true) l ->
  ascii_of_points (map code l) = Some l.
Proof.
  induction 1 as [|c l Hc _ IH]; [reflexivity|].
  cbn [map ascii_of_points]. rewrite Hc, IH. cbn [option_map].
  now rewrite ascii_of_code_code.
Qed.

Lemma numeral_text_ascii l :
  Forall (fun c => (code c <? 127)%Z = true) l ->
  numeral_text (string_of_list_ascii l) = Some l.
Proof.
  intros H. unfold numeral_text. rewrite list_ascii_of_string_of_list_ascii.
  now rewrite (code_points_ascii l H), (ascii_of_points_ascii l H).
Qed.

(** [float] reads every plain decimal numeral. *)
Lemma py_float_plain_decimal (ip fp : list ascii) :
  decimal_digits ip fp ->
  py_float (Some (plain_decimal ip fp))
  = inr (binary64_of_decimal false (digits_value (ip ++ fp))
           (0 - Z.of_nat (List.length fp))).
Proof.
  intros (Hne & Hip & Hfp). unfold py_float, plain_decimal.
  rewrite numeral_text_ascii.
  2:{ apply Forall_app. split; [|constructor; [reflexivity|]];
        (eapply Forall_impl; [|eassumption]); exact digit_is_ascii. }
  assert (forall c, In c (ip ++ "."%char :: fp) ->
                    is_space c = false /\ Ascii.eqb "_" c = false) as Hall.
  { pose proof (proj1 (Forall_forall _ _) Hip) as Hip'.
    pose proof (proj1 (Forall_forall _ _) Hfp) as Hfp'.
    intros c Hc. apply in_app_or in Hc.
    destruct Hc as [Hc|[<-|Hc]].
    - split; [apply digit_not_space | apply digit_not_underscore];
        now apply Hip'.
    - now split.
    - split; [apply digit_not_space | apply digit_not_underscore];
        now apply Hfp'. }
  cbv zeta.
  rewrite strip_none by (intros c Hc; now apply Hall).
  assert (existsb (Ascii.eqb "_") (ip ++ "."%char :: fp) = false) as ->.
  { apply Bool.not_true_is_false. intros H. apply existsb_exists in H.
    destruct H as (c & Hc & Hu). destruct (Hall c Hc) as [_ Hn].
    rewrite Hn in Hu. discriminate. }
  destruct ip as [|d ip]; [now contradiction Hne|].
  pose proof (Forall_inv Hip) as Hd.
  unfold string_to_double. cbn [app].
  rewrite (read_sign_digit d _ Hd). unfold parse_decimal.
  change (d :: ip ++ "."%char :: fp) with ((d :: ip) ++ "."%char :: fp).
  rewrite (span_digits_stop (d :: ip) "." fp Hip eq_refl).
  rewrite (span_digits_all fp Hfp). cbn [app]. reflexivity.
Qed.

(** X14. Telemetry whose three numbers are written as plain decimal
    numerals (digits, a point, digits, with at least one digit before
    the point) is always decoded: [float] accepts every such text,
    however long, so [parse_xml] does not raise and each of the six
    telemetry boxes ends up holding exactly one value, whatever it held
    before. *)
Theorem X14_plain_decimal_numbers_always_decode
    parser (data : bytes) (elem : Element) (ts ph hr : string)
    (i1 f1 i2 f2 i3 f3 : list ascii) (g : world) :
  decoded_element parser data = Some elem ->
  findtext elem "TimeStamp" = Some ts ->
  findtext elem "VO2" = Some (plain_decimal i1 f1) ->
  findtext elem "VCO2" = Some (plain_decimal i2 f2) ->
  findtext elem "PHASE" = Some ph ->
  findtext elem "VE" = Some (plain_decimal i3 f3) ->
  findtext elem "HR" = Some hr ->
  decimal_digits i1 f1 -> decimal_digits i2 f2 -> decimal_digits i3 f3 ->
  fst (parse_xml parser data g) = Ok tt
  /\ contents (snd (parse_xml parser data g)) tb_time = [PyStr ts]
  /\ contents (snd (parse_xml parser data g)) tb_phase = [PyStr ph]
  /\ contents (snd (parse_xml parser data g)) tb_hr = [PyStr hr]
  /\ forall w, w = tb_vo2 \/ w = tb_vco2 \/ w = tb_ve ->
       exists x, contents (snd (parse_xml parser data g)) w = [PyFloat x].
Proof.
  intros Helem Hts H1 H2 Hph H3 Hhr D1 D2 D3.
  pose proof (py_float_plain_decimal _ _ D1) as F1.
  pose proof (py_float_plain_decimal _ _ D2) as F2.
  pose proof (py_float_plain_decimal _ _ D3) as F3.
  rewrite <- H1 in F1. rewrite <- H2 in F2. rewrite <- H3 in F3.
  rewrite (parse_xml_complete parser data elem Helem ts _ _ ph _ hr g
             Hts F1 F2 Hph F3 Hhr).
  cbn [fst snd]. split; [reflexivity|].
  split; [boxes|]. split; [boxes|]. split; [boxes|].
  intros w [-> | [-> | ->]]; eexists; boxes.
Qed.

Lemma X14_witness :
  decoded_element RefParser.parser example_document = Some example_element
  /\ decimal_digits (list_ascii_of_string "2345") (list_ascii_of_string "678")
  /\ decimal_digits (list_ascii_of_string "1987") (list_ascii_of_string "321")
  /\ decimal_digits (list_ascii_of_string "45") (list_ascii_of_string "6789")
  /\ fst (parse_xml RefParser.parser example_document initial_world) = Ok tt.
Proof.
  assert (H0 : decoded_element RefParser.parser example_document
               = Some example_element) by (vm_compute; reflexivity).
  assert (D1 : decimal_digits (list_ascii_of_string "2345")
                 (list_ascii_of_string "678"))
    by (split; [discriminate | split; repeat constructor]).
  assert (D2 : decimal_digits (list_ascii_of_string "1987")
                 (list_ascii_of_string "321"))
    by (split; [discriminate | split; repeat constructor]).
  assert (D3 : decimal_digits (list_ascii_of_string "45")
                 (list_ascii_of_string "6789"))
    by (split; [discriminate | split; repeat constructor]).
  repeat (split; [assumption|]).
  exact (proj1 (X14_plain_decimal_numbers_always_decode RefParser.parser
                  example_document example_element "00:01:23" "EX" "142"
                  (list_ascii_of_string "2345") (list_ascii_of_string "678")
                  (list_ascii_of_string "1987") (list_ascii_of_string "321")
                  (list_ascii_of_string "45") (list_ascii_of_string "6789")
                  initial_world H0 eq_refl eq_refl eq_refl
                  eq_refl eq_refl eq_refl D1 D2 D3)).
Defined.
